(** * AgentWorldStarter: the layout of leaders, teachers and students

    A shallow embedding of [unreal/AgentWorldStarter.cpp]: the actor
    [AAgentWorldStarter] spawns one sphere per agent and keeps the spawned
    actors in its array [Agents].  The embedding follows the layout path of
    the file ([CreateAgentWorld], [CreateLeaders], [CreateTeachersAndStudents],
    [CreateAgent], [CreateSphere], [CreateLabel], [CreateCrown]).

    Conventions.
    - [int32] values are integers of [Z]; [i + 1] and [i++] are written with
      the 32-bit wrap-around [add32], [/] and [%] are the truncating
      [Z.quot] and [Z.rem], and [%] by zero is a fault.
    - [float] values live in a type [F] that comes with the operations the
      file uses (class [Scalar]): the development is generic in them.  The
      instance [Binary32_Scalar] is IEEE 754 single precision, the arithmetic
      of the source; the instance [R_Scalar] is exact real arithmetic.
    - [FString] is [string]; [%d] prints a decimal numeral.
    - An [AActor*] is the position of the actor in [Agents]: every actor is
      added to [Agents] as soon as it is spawned. *)

From Stdlib Require Import ZArith List String Ascii Bool Lia FinFun.
From Stdlib Require Import QArith Reals Lra.
From Stdlib Require Import Decimal DecimalString DecimalZ.
From Stdlib Require Import SpecFloat Machin.
Import ListNotations.

Local Open Scope Z_scope.

(** ** Machine integers *)

Definition INT32_MIN : Z := - 2 ^ 31.
Definition INT32_MAX : Z := 2 ^ 31 - 1.

Definition int32 (z : Z) : Prop := INT32_MIN <= z <= INT32_MAX.

Definition wrap32 (z : Z) : Z := (z + 2 ^ 31) mod 2 ^ 32 - 2 ^ 31.

Definition add32 (a b : Z) : Z := wrap32 (a + b).

(** ** Scalars: the [float] operations of the file *)

Class Scalar (F : Type) : Type := {
  ofInt : Z -> F;            (* conversion of an int32 operand to float *)
  lit : Q -> F;              (* a literal such as 1.5f *)
  fadd : F -> F -> F;
  fmul : F -> F -> F;
  fdiv : F -> F -> F;
  FMath_Cos : F -> F;
  FMath_Sin : F -> F;
  PI : F                     (* the engine's constant PI *)
}.

(** The same operations with another division. *)
Definition with_fdiv {F} (S : Scalar F) (d : F -> F -> F) : Scalar F :=
  {| ofInt := @ofInt F S; lit := @lit F S; fadd := @fadd F S;
     fmul := @fmul F S; fdiv := d; FMath_Cos := @FMath_Cos F S;
     FMath_Sin := @FMath_Sin F S; PI := @PI F S |}.

(** Exact real arithmetic: the scalars in which the layout formulas of the
    specification are read.  The source itself computes in single precision
    ([Binary32_Scalar] below); what is proved for every [Scalar] holds for
    both. *)
#[export] Instance R_Scalar : Scalar R := {|
  ofInt := IZR; lit := Q2R; fadd := Rplus; fmul := Rmult; fdiv := Rdiv;
  FMath_Cos := cos; FMath_Sin := sin; PI := Rtrigo1.PI |}.

(** ** Single precision

    The [float] of the source is IEEE 754 binary32: 24 bits of precision,
    exponents up to 128.  Its values and the operations [+], [*], [/] and the
    conversions are those of the Standard Library's [SpecFloat], rounding to
    nearest, ties to even. *)

Definition binary32 : Type := spec_float.

(** The real number that a binary32 value denotes (zero for the values that
    are not finite). *)
Definition F2R (x : binary32) : R :=
  match x with
  | S754_finite s m e => ((if s then -1 else 1) * IZR (Zpos m) * powerRZ 2 e)%R
  | _ => 0%R
  end.

(** The integer nearest to [y], the even one of two that are as near. *)
Definition Znearest_even (y : R) : Z :=
  let f := Int_part y in
  match total_order_T (y - IZR f) (1 / 2) with
  | inleft (left _) => f
  | inleft (right _) => if Z.even f then f else f + 1
  | inright _ => f + 1
  end.

(** The exponent of the binary32 format at [y > 0]: the largest [e], from
    [104] down to [-149], with [2 ^ (e + 23) <= y]; [-149] if there is none. *)
Fixpoint find_exp (fuel : nat) (e : Z) (y : R) : Z :=
  match fuel with
  | O => e
  | Datatypes.S n =>
      if Rle_dec (powerRZ 2 (e + 23)) y then e else find_exp n (e - 1) y
  end.

(** The binary32 value nearest to the real number [y > 0]. *)
Definition round_pos (y : R) : binary32 :=
  let e := find_exp 253 104 y in
  binary_normalize 24 128 (Znearest_even (y * powerRZ 2 (- e))) e false.

(** The binary32 value nearest to the real number [r]. *)
Definition R2F32 (r : R) : binary32 :=
  match total_order_T r 0 with
  | inleft (left _) => SFopp (round_pos (- r))
  | inleft (right _) => S754_zero false
  | inright _ => round_pos r
  end.

(** [FMath::Sin] and [FMath::Cos] are the engine's, over the C library's
    [sinf] and [cosf]; the source does not hold them.  They are taken as the
    correctly rounded sine and cosine: the binary32 value nearest to the
    sine, or cosine, of the argument. *)
Definition sinf32 (x : binary32) : binary32 :=
  match x with
  | S754_zero s => S754_zero s
  | S754_finite _ _ _ => R2F32 (sin (F2R x))
  | _ => S754_nan
  end.

Definition cosf32 (x : binary32) : binary32 :=
  match x with
  | S754_zero _ | S754_finite _ _ _ => R2F32 (cos (F2R x))
  | _ => S754_nan
  end.

(** The engine's [PI], [3.1415926535897932f]: the binary32 value nearest to
    it is [13176795 * 2 ^ -22]. *)
Definition PI32 : binary32 := S754_finite false 13176795 (-22).

(** An [int32] converted to [float]. *)
Definition ofInt32 (z : Z) : binary32 := binary_normalize 24 128 z 0 false.

(** A decimal literal [n / d] with [n] and [d] below [2 ^ 24]: the quotient
    of two exact values, rounded once. *)
Definition lit32 (q : Q) : binary32 :=
  SFdiv 24 128 (ofInt32 (Qnum q)) (ofInt32 (Zpos (Qden q))).

#[export] Instance Binary32_Scalar : Scalar binary32 := {|
  ofInt := ofInt32; lit := lit32;
  fadd := SFadd 24 128; fmul := SFmul 24 128; fdiv := SFdiv 24 128;
  FMath_Cos := cosf32; FMath_Sin := sinf32; PI := PI32 |}.

(** ** Strings *)

Definition FString : Type := string.

(** [%d] of [FString::Printf]. *)
Definition fmt_d (z : Z) : FString := NilEmpty.string_of_int (Z.to_int z).

(** Does the character [c] occur in [s]? *)
Fixpoint occurs (c : ascii) (s : string) : bool :=
  match s with
  | EmptyString => false
  | String a s' => Ascii.eqb a c || occurs c s'
  end.

(** ** Faults and outcomes *)

Inductive Fault : Type :=
| DivideByZero       (* integer [%] with a zero divisor *)
| IndexOutOfRange    (* [TArray::operator[]] range check *)
| InvalidActor.      (* an actor pointer that is not in [Agents] *)

Inductive Outcome (A : Type) : Type :=
| Done (a : A)
| Crash (f : Fault).
Arguments Done {A} a.
Arguments Crash {A} f.

(** Which call of [CreateAgent] spawned an actor: the one of [CreateLeaders],
    or the teacher or the student call of [CreateTeachersAndStudents].  The
    source keeps no such field; it tells the three apart by the call site
    (and the colour passed there). *)
Inductive Category : Type := Leader | Teacher | Student.

Definition Category_eq_dec (a b : Category) : {a = b} + {a <> b}.
Proof. decide equality. Defined.

Section Model.

Context {F : Type} {S : Scalar F}.

(** ** Engine values *)

Record FVector : Type := mkFVector { vx : F; vy : F; vz : F }.

Definition FVector_plus (a b : FVector) : FVector :=
  mkFVector (fadd (vx a) (vx b)) (fadd (vy a) (vy b)) (fadd (vz a) (vz b)).

Definition ZeroVector : FVector := mkFVector (lit 0) (lit 0) (lit 0).

Record FLinearColor : Type :=
  mkFLinearColor { ColorR : F; ColorG : F; ColorB : F; ColorA : F }.

(** The sphere component made by [CreateSphere]. *)
Record USphere : Type := mkUSphere {
  SphereLocation : FVector;
  SphereColor : FLinearColor;
  SphereRadius : F
}.

(** A spawned actor with what the file attaches to it. *)
Record AActor : Type := mkAActor {
  Kind : Category;
  ActorLabel : FString;
  ActorLocation : FVector;
  RootSphere : USphere;
  TextLabel : option FString;
  Crown : list FVector
}.

(** ** The configuration: the properties of [AAgentWorldStarter] *)

Record AAgentWorldStarter : Type := mkStarter {
  TeacherCount : Z;
  StudentsPerTeacher : Z;
  TeacherColor : FLinearColor;
  StudentColor : FLinearColor;
  LeaderColor : FLinearColor;
  AgentSize : F;
  Spacing : F;
  ShowLabels : bool;
  Leaders : list FString
}.

Definition set_ShowLabels (b : bool) (c : AAgentWorldStarter) : AAgentWorldStarter :=
  mkStarter (TeacherCount c) (StudentsPerTeacher c) (TeacherColor c)
    (StudentColor c) (LeaderColor c) (AgentSize c) (Spacing c) b (Leaders c).

(** [Leaders.Num()] *)
Definition Num (l : list FString) : Z := Z.of_nat (List.length l).

(** ** The state: [Agents], and computations that may fault *)

Definition M (A : Type) : Type := list AActor -> Outcome (A * list AActor).

Definition ret {A} (a : A) : M A := fun Agents => Done (a, Agents).

Definition bind {A B} (m : M A) (k : A -> M B) : M B :=
  fun Agents =>
    match m Agents with
    | Done (a, Agents') => k a Agents'
    | Crash f => Crash f
    end.

Definition raise {A} (f : Fault) : M A := fun _ => Crash f.

Notation "x <- m ;; k" := (bind m (fun x => k))
  (at level 61, m at next level, right associativity).
Notation "m ;; k" := (bind m (fun _ => k))
  (at level 61, right associativity).

(** [for (int32 i = i0; i < N; i++) body(i)], at most [fuel] rounds.
    [for_loop] gives it the [N] rounds that a loop from 0 needs. *)
Fixpoint for_from (fuel : nat) (i N : Z) (body : Z -> M unit) : M unit :=
  match fuel with
  | O => ret tt
  | Datatypes.S fuel' =>
      if i <? N then body i ;; for_from fuel' (add32 i 1) N body
      else ret tt
  end.

Definition for_loop (N : Z) (body : Z -> M unit) : M unit :=
  for_from (Z.to_nat N) 0 N body.

(** [a % b] on int32 *)
Definition rem32 {A} (a b : Z) (k : Z -> M A) : M A :=
  if b =? 0 then raise DivideByZero else k (Z.rem a b).

(** [Leaders[n]] *)
Definition Leaders_at {A} (l : list FString) (n : Z) (k : FString -> M A) : M A :=
  if n <? 0 then raise IndexOutOfRange
  else match nth_error l (Z.to_nat n) with
       | Some s => k s
       | None => raise IndexOutOfRange
       end.

(** Replace the [n]-th element. *)
Fixpoint set_nth {A} (n : nat) (a : A) (l : list A) : list A :=
  match l, n with
  | [], _ => []
  | _ :: t, O => a :: t
  | h :: t, Datatypes.S n' => h :: set_nth n' a t
  end.

(** ** The file's functions *)

Section Methods.

Variable self : AAgentWorldStarter.

(** The mesh and the material are looked up in the engine; of the component
    the model keeps the location, the colour and the radius it is given. *)
Definition CreateSphere (Position : FVector) (Color : FLinearColor) (Radius : F)
  : USphere := mkUSphere Position Color Radius.

(** The text of the label component. *)

Definition CreateLabel (Text : FString) : FString := Text.

(** [role] names the call site (see [Category]); the pointer returned is the
    place of the new actor in [Agents]. *)
Definition CreateAgent (role : Category) (AgentName : FString)
    (Position : FVector) (Color : FLinearColor) (Size : F) : M nat :=
  fun Agents =>
    let Sphere := CreateSphere ZeroVector Color Size in
    let Agent :=
      mkAActor role AgentName Position Sphere
        (if ShowLabels self then Some (CreateLabel AgentName) else None) [] in
    Done (List.length Agents, Agents ++ [Agent]).

(** The five spikes, [72] degrees apart on a circle of radius [30]. *)
Definition CrownSpike (i : Z) : FVector :=
  let CrownPos := mkFVector (lit 0) (lit 0) (lit 120) in
  let Angle := fdiv (fmul (fmul (ofInt i) (lit 72)) PI) (lit 180) in
  let CrownRadius := lit 30 in
  FVector_plus CrownPos
    (mkFVector (fmul (FMath_Cos Angle) CrownRadius)
               (fmul (FMath_Sin Angle) CrownRadius) (lit 0)).

(** [CreateCrown] attaches the spikes to an actor that [Agents] already
    points to. *)
Definition CreateCrown (Parent : nat) : M unit :=
  fun Agents =>
    match nth_error Agents Parent with
    | Some a =>
        let a' := mkAActor (Kind a) (ActorLabel a) (ActorLocation a)
                    (RootSphere a) (TextLabel a)
                    (Crown a ++ map CrownSpike [0; 1; 2; 3; 4]) in
        Done (tt, set_nth Parent a' Agents)
    | None => Crash InvalidActor
    end.

Definition LeaderStartPos : FVector := mkFVector (lit 0) (lit 0) (lit 500).

Definition CreateLeaders_body (i : Z) : M unit :=
  let Position :=
    FVector_plus LeaderStartPos
      (mkFVector (fmul (fmul (ofInt i) (Spacing self)) (ofInt 2)) (lit 0) (lit 0)) in
  Leaders_at (Leaders self) i (fun name =>
    let LeaderName := ("Leader_" ++ name)%string in
    Leader_ <- CreateAgent Leader LeaderName Position (LeaderColor self)
                 (fmul (AgentSize self) (lit 1.5)) ;;
    CreateCrown Leader_).

Definition CreateLeaders : M unit :=
  for_loop (Num (Leaders self)) CreateLeaders_body.

Definition TeachersPerRow : Z := 5.

Definition TeacherStartPos : FVector := mkFVector (lit 0) (lit 0) (lit (-500)).

Definition TeacherPos (i : Z) : FVector :=
  let Row := Z.quot i TeachersPerRow in
  let Col := Z.rem i TeachersPerRow in
  FVector_plus TeacherStartPos
    (mkFVector (fmul (fmul (ofInt Col) (Spacing self)) (ofInt 3))
               (fmul (fmul (ofInt Row) (Spacing self)) (ofInt 4)) (lit 0)).

Definition TeacherName (i : Z) : FString :=
  ("Teacher_" ++ fmt_d (add32 i 1))%string.

Definition StudentAngle (j : Z) : F :=
  fdiv (fmul (fdiv (fmul (ofInt j) (lit 360)) (ofInt (StudentsPerTeacher self))) PI)
       (lit 180).

Definition StudentOffset (j : Z) : FVector :=
  let Angle := StudentAngle j in
  mkFVector (fmul (FMath_Cos Angle) (Spacing self))
            (fmul (FMath_Sin Angle) (Spacing self)) (lit 0).

Definition StudentName (i j : Z) : FString :=
  ("Teacher_" ++ fmt_d (add32 i 1) ++ "_Student_" ++ fmt_d (add32 j 1))%string.

Definition CreateStudents_body (i j : Z) : M unit :=
  let StudentPos := FVector_plus (TeacherPos i) (StudentOffset j) in
  Student_ <- CreateAgent Student (StudentName i j) StudentPos
                (StudentColor self) (fmul (AgentSize self) (lit 0.8)) ;;
  ret tt.

(** [FString LeaderName = Leaders[i % Leaders.Num()]] *)
Definition TeacherLeaderName {A} (i : Z) (k : FString -> M A) : M A :=
  rem32 i (Num (Leaders self)) (fun n => Leaders_at (Leaders self) n k).

(** One round of the teacher loop.  [probe] stands right after the binding
    of the local [LeaderName] and is handed its value.  The source does
    nothing with the name: [CreateTeachers_body], the round that the loop
    runs, has the empty probe.  The probe is what lets a theorem speak of the
    value the local holds. *)
Definition CreateTeachers_body_probed (probe : FString -> M unit) (i : Z) : M unit :=
  TeacherLeaderName i (fun LeaderName =>
    probe LeaderName ;;
    Teacher_ <- CreateAgent Teacher (TeacherName i) (TeacherPos i)
                  (TeacherColor self) (AgentSize self) ;;
    for_loop (StudentsPerTeacher self) (CreateStudents_body i)).

Definition CreateTeachers_body (i : Z) : M unit :=
  CreateTeachers_body_probed (fun _ => ret tt) i.

Definition CreateTeachersAndStudents : M unit :=
  for_loop (TeacherCount self) CreateTeachers_body.

Definition CreateAgentWorld : M unit :=
  CreateLeaders ;; CreateTeachersAndStudents.

End Methods.

(** ** Placement records: what the layout hands to the renderer *)

Record PlacementRecord : Type := mkPlacement {
  id : FString;
  category : Category;
  position : FVector;
  color : FLinearColor;
  size : F
}.

Definition placement (a : AActor) : PlacementRecord :=
  mkPlacement (ActorLabel a) (Kind a) (ActorLocation a)
    (SphereColor (RootSphere a)) (SphereRadius (RootSphere a)).

(** [generate]: run [CreateAgentWorld] on the empty [Agents] and read the
    placements off the actors it leaves there. *)
Definition generate (config : AAgentWorldStarter) : Outcome (list PlacementRecord) :=
  match CreateAgentWorld config [] with
  | Done (_, Agents) => Done (map placement Agents)
  | Crash f => Crash f
  end.

Definition count (c : Category) (out : list PlacementRecord) : nat :=
  List.length (filter (fun r => if Category_eq_dec (category r) c then true else false) out).

Definition ids (out : list PlacementRecord) : list FString := map id out.

End Model.

(** ** What a run leaves in [Agents], written without the loops

    These are the lists that the loops are shown to build
    ([CreateAgentWorld_runs] below); the claims are then read off them. *)

Section Spawned.

Context {F : Type} {S : Scalar F}.

Variable self : AAgentWorldStarter (F := F).

(** The values [0, 1, ..., n-1] of a loop counter. *)
Definition range (n : Z) : list Z := map Z.of_nat (seq 0 (Z.to_nat n)).

Definition label_of (name : FString) : option FString :=
  if ShowLabels self then Some name else None.

Definition spawned_leader (i : Z) : AActor :=
  let name := ("Leader_" ++ nth (Z.to_nat i) (Leaders self) "")%string in
  mkAActor Leader name
    (FVector_plus LeaderStartPos
       (mkFVector (fmul (fmul (ofInt i) (Spacing self)) (ofInt 2)) (lit 0) (lit 0)))
    (mkUSphere ZeroVector (LeaderColor self) (fmul (AgentSize self) (lit 1.5)))
    (label_of name) (map CrownSpike [0; 1; 2; 3; 4]).

Definition spawned_teacher (i : Z) : AActor :=
  mkAActor Teacher (TeacherName i) (TeacherPos self i)
    (mkUSphere ZeroVector (TeacherColor self) (AgentSize self))
    (label_of (TeacherName i)) [].

Definition spawned_student (i j : Z) : AActor :=
  mkAActor Student (StudentName i j)
    (FVector_plus (TeacherPos self i) (StudentOffset self j))
    (mkUSphere ZeroVector (StudentColor self) (fmul (AgentSize self) (lit 0.8)))
    (label_of (StudentName i j)) [].

Definition spawned_leaders : list AActor :=
  map spawned_leader (range (Num (Leaders self))).

(** A teacher, followed by its students. *)
Definition spawned_class (i : Z) : list AActor :=
  spawned_teacher i :: map (spawned_student i) (range (StudentsPerTeacher self)).

Definition spawned_classes : list AActor :=
  flat_map spawned_class (range (TeacherCount self)).

Definition spawned_agents : list AActor := spawned_leaders ++ spawned_classes.

(** Where teacher [i] and its student [j] stand in the output. *)
Definition teacher_index (i : Z) : nat :=
  (List.length (Leaders self)
   + Z.to_nat i * Datatypes.S (Z.to_nat (StudentsPerTeacher self)))%nat.

Definition student_index (i j : Z) : nat :=
  (teacher_index i + 1 + Z.to_nat j)%nat.


(** The counts fit the machine integers. *)
Definition wf_config : Prop :=
  int32 (TeacherCount self) /\ int32 (StudentsPerTeacher self) /\
  int32 (Num (Leaders self)).

(** The run reaches the lookup [Leaders[i % Leaders.Num()]] with an empty
    [Leaders] exactly when this fails. *)
Definition has_leader_or_no_teacher : Prop :=
  Leaders self <> [] \/ TeacherCount self <= 0.

End Spawned.

(** ** Runs that agree on the placement records *)

Section Agreement.

Context {F : Type}.

(** Two contents of [Agents] that give the same placement records. *)
Definition same_placements (A1 A2 : list (AActor (F := F))) : Prop :=
  map placement A1 = map placement A2.

(** Two outcomes that agree up to [same_placements]. *)
Definition sim {X} (o1 o2 : Outcome (X * list (AActor (F := F)))) : Prop :=
  match o1, o2 with
  | Done (x1, A1), Done (x2, A2) => x1 = x2 /\ same_placements A1 A2
  | Crash f1, Crash f2 => f1 = f2
  | _, _ => False
  end.

End Agreement.

(** The arithmetic identities of exact scalars that the layout formulas of
    the specification take for granted. *)
Class ExactScalar (F : Type) {S : Scalar F} : Prop := {
  fadd_0_l : forall x : F, fadd (lit 0) x = x;
  fadd_0_r : forall x : F, fadd x (lit 0) = x;
  fmul_comm : forall x y : F, fmul x y = fmul y x;
  fmul_assoc : forall x y z : F, fmul (fmul x y) z = fmul x (fmul y z)
}.

(** ** Configurations used in examples *)

Definition Blue : FLinearColor (F := R) := mkFLinearColor 0%R 0%R 1%R 1%R.
Definition Green : FLinearColor (F := R) := mkFLinearColor 0%R 1%R 0%R 1%R.
Definition Gold : FLinearColor (F := R) := mkFLinearColor 1%R 0.84%R 0%R 1%R.

(** The property values the class declares. *)
Definition default_config : AAgentWorldStarter (F := R) :=
  mkStarter 20 2 Blue Green Gold 50%R 200%R true
    ["phi"; "gpt"; "mistral"; "codex"; "lucidia"]%string.

(** The example of the specification, in single precision. *)
Definition example_config (tc sc lc : FLinearColor (F := binary32)) (labels : bool)
  : AAgentWorldStarter (F := binary32) :=
  mkStarter 1 2 tc sc lc (lit32 50) (lit32 200) labels ["phi"; "gpt"]%string.

(** The colours the class declares, in single precision. *)
Definition Blue32 : FLinearColor (F := binary32) :=
  mkFLinearColor (lit32 0) (lit32 0) (lit32 1) (lit32 1).
Definition Green32 : FLinearColor (F := binary32) :=
  mkFLinearColor (lit32 0) (lit32 1) (lit32 0) (lit32 1).
Definition Gold32 : FLinearColor (F := binary32) :=
  mkFLinearColor (lit32 1) (lit32 0.84) (lit32 0) (lit32 1).

(** One teacher and nobody to lead it. *)
Definition leaderless_config (teachers students : Z) : AAgentWorldStarter (F := R) :=
  mkStarter teachers students Blue Green Gold 50%R 200%R true [].

(** Three teachers without students. *)
Definition no_student_config : AAgentWorldStarter (F := R) :=
  mkStarter 3 0 Blue Green Gold 50%R 200%R true ["phi"]%string.

(** The same leader name twice. *)
Definition twin_config : AAgentWorldStarter (F := R) :=
  mkStarter 0 0 Blue Green Gold 50%R 200%R true ["phi"; "phi"]%string.

(** * Proofs *)

(** ** Machine integers *)

Lemma add32_succ (i : Z) : 0 <= i < INT32_MAX -> add32 i 1 = i + 1.
Proof.
  unfold add32, wrap32, INT32_MAX. intros H.
  rewrite Z.mod_small; lia.
Qed.

Lemma rem_nonneg (a b : Z) : 0 <= a -> 0 < b -> Z.rem a b = a mod b.
Proof. intros. apply Z.rem_mod_nonneg; lia. Qed.


(** ** Strings and decimal numerals *)

Lemma fmt_d_inj (a b : Z) : fmt_d a = fmt_d b -> a = b.
Proof.
  unfold fmt_d. intros H.
  apply (f_equal NilEmpty.int_of_string) in H.
  rewrite !NilEmpty.isi in H. injection H as H.
  apply (f_equal Z.of_int) in H. now rewrite !DecimalZ.of_to in H.
Qed.

Lemma string_of_uint_no_underscore (d : uint) :
  occurs "_" (NilEmpty.string_of_uint d) = false.
Proof. induction d; simpl; auto. Qed.

(** A numeral has digits and at most a sign, so no underscore. *)
Lemma fmt_d_no_underscore (z : Z) : occurs "_" (fmt_d z) = false.
Proof.
  unfold fmt_d. destruct (Z.to_int z) as [d|d]; simpl;
    apply string_of_uint_no_underscore.
Qed.

Lemma append_inj_l (p a b : string) : (p ++ a = p ++ b)%string -> a = b.
Proof.
  induction p as [|c p IH]; simpl; intros H; [exact H|].
  injection H as H. auto.
Qed.

Lemma occurs_append (c : ascii) (s r : string) :
  occurs c (s ++ String c r) = true.
Proof.
  induction s as [|a s IH]; simpl.
  - now rewrite Ascii.eqb_refl.
  - rewrite IH. apply orb_true_r.
Qed.

(** Two strings cut at their first [c] agree on both sides of the cut. *)
Lemma append_cut (c : ascii) (s1 s2 r1 r2 : string) :
  occurs c s1 = false -> occurs c s2 = false ->
  (s1 ++ String c r1 = s2 ++ String c r2)%string -> s1 = s2 /\ r1 = r2.
Proof.
  revert s2. induction s1 as [|a s1 IH]; intros [|b s2]; simpl; intros H1 H2 E.
  - injection E as E. auto.
  - injection E as E1 E2. subst b. now rewrite Ascii.eqb_refl in H2.
  - injection E as E1 E2. subst a. now rewrite Ascii.eqb_refl in H1.
  - injection E as E1 E2. subst b.
    apply orb_false_iff in H1 as [_ H1]. apply orb_false_iff in H2 as [_ H2].
    destruct (IH s2 H1 H2 E2) as [-> ->]. auto.
Qed.

Lemma length_append (s r : string) :
  String.length (s ++ r) = (String.length s + String.length r)%nat.
Proof. induction s as [|a s IH]; simpl; [reflexivity | now rewrite IH]. Qed.

Lemma prefix_append (s r : string) : String.prefix s (s ++ r) = true.
Proof.
  induction s as [|a s IH]; simpl.
  - now destruct r.
  - destruct (ascii_dec a a); [exact IH | congruence].
Qed.

(** ** Lists *)

Lemma set_nth_last {A} (l : list A) (a b : A) :
  set_nth (List.length l) b (l ++ [a]) = l ++ [b].
Proof. induction l as [|h t IH]; simpl; [reflexivity | now rewrite IH]. Qed.

Lemma nth_error_last {A} (l : list A) (a : A) :
  nth_error (l ++ [a]) (List.length l) = Some a.
Proof. induction l as [|h t IH]; simpl; [reflexivity | exact IH]. Qed.

Lemma range_length (n : Z) : List.length (range n) = Z.to_nat n.
Proof. unfold range. now rewrite length_map, length_seq. Qed.

Lemma range_nonpos (n : Z) : n <= 0 -> range n = [].
Proof.
  intros H. unfold range. replace (Z.to_nat n) with O by lia. reflexivity.
Qed.

Lemma nth_error_range (n : Z) (k : nat) :
  (k < Z.to_nat n)%nat -> nth_error (range n) k = Some (Z.of_nat k).
Proof.
  intros H. unfold range.
  rewrite nth_error_map, nth_error_seq.
  destruct (Nat.ltb_spec k (Z.to_nat n)); [reflexivity | lia].
Qed.

Lemma in_range (n i : Z) : In i (range n) <-> 0 <= i < n.
Proof.
  unfold range. rewrite in_map_iff. split.
  - intros (k & <- & Hk). apply in_seq in Hk. lia.
  - intros H. exists (Z.to_nat i). split; [lia | apply in_seq; lia].
Qed.

Lemma NoDup_range (n : Z) : NoDup (range n).
Proof.
  unfold range. apply Injective_map_NoDup.
  - intros a b H. lia.
  - apply seq_NoDup.
Qed.

Lemma flat_map_singleton {A B} (f : A -> B) (l : list A) :
  flat_map (fun a => [f a]) l = map f l.
Proof. induction l as [|h t IH]; simpl; [reflexivity | now rewrite IH]. Qed.

Section Runs.

Context {F : Type} {S : Scalar F}.


(** ** Loops *)

(** A loop whose body appends [f i] in round [i] appends them all, in order;
    the fuel of [for_loop] is never what stops it. *)
Lemma for_from_appends (N : Z) (body : Z -> M unit) (f : Z -> list (AActor (F := F))) :
  N <= INT32_MAX ->
  (forall i A, 0 <= i < N -> body i A = Done (tt, A ++ f i)) ->
  forall fuel i A,
    0 <= i -> i + Z.of_nat fuel = N ->
    for_from fuel i N body A =
    Done (tt, A ++ flat_map f (map Z.of_nat (seq (Z.to_nat i) fuel))).
Proof.
  intros HN Hbody fuel. induction fuel as [|fuel IH]; intros i A Hi Hsum.
  - simpl. unfold ret. now rewrite app_nil_r.
  - cbn [for_from].
    destruct (Z.ltb_spec i N) as [Hlt|Hge]; [|lia].
    unfold bind. rewrite Hbody by lia.
    rewrite add32_succ by lia.
    rewrite IH by lia.
    cbn [seq map flat_map].
    replace (Z.to_nat (i + 1)) with (Datatypes.S (Z.to_nat i)) by lia.
    rewrite Z2Nat.id by lia. now rewrite <- app_assoc.
Qed.

Lemma for_loop_appends (N : Z) (body : Z -> M unit) (f : Z -> list (AActor (F := F))) (A : list (AActor (F := F))) :
  N <= INT32_MAX ->
  (forall i A, 0 <= i < N -> body i A = Done (tt, A ++ f i)) ->
  for_loop N body A = Done (tt, A ++ flat_map f (range N)).
Proof.
  intros HN Hbody. unfold for_loop, range.
  destruct (Z.le_gt_cases N 0) as [Hle|Hgt].
  - replace (Z.to_nat N) with O by lia. simpl. unfold ret. now rewrite app_nil_r.
  - apply (for_from_appends N body f HN Hbody (Z.to_nat N) 0 A); lia.
Qed.

(** A loop that runs at least once faults when its first round does. *)
Lemma for_loop_first_crash (N : Z) (body : Z -> M unit) (A : list (AActor (F := F))) (flt : Fault) :
  0 < N -> body 0 A = Crash flt -> for_loop N body A = Crash flt.
Proof.
  intros HN Hbody. unfold for_loop.
  destruct (Z.to_nat N) as [|fuel] eqn:E; [lia|].
  cbn [for_from]. destruct (Z.ltb_spec 0 N); [|lia].
  unfold bind. now rewrite Hbody.
Qed.

(** ** The functions of the file *)

Variable self : AAgentWorldStarter (F := F).

Lemma CreateLeaders_body_runs (i : Z) (A : list (AActor (F := F))) :
  0 <= i < Num (Leaders self) ->
  CreateLeaders_body self i A = Done (tt, A ++ [spawned_leader self i]).
Proof.
  intros Hi. unfold CreateLeaders_body, Leaders_at, Num in *.
  destruct (Z.ltb_spec i 0); [lia|].
  destruct (nth_error (Leaders self) (Z.to_nat i)) as [name|] eqn:E.
  - unfold bind, CreateAgent, CreateCrown.
    rewrite nth_error_last, set_nth_last.
    assert (Hname : @nth FString (Z.to_nat i) (Leaders self) ""%string = name)
      by exact (nth_error_nth _ _ _ E).
    unfold spawned_leader, label_of, CreateSphere, CreateLabel.
    cbn. rewrite Hname. reflexivity.
  - apply nth_error_None in E. lia.
Qed.

Lemma CreateLeaders_runs (A : list (AActor (F := F))) :
  int32 (Num (Leaders self)) ->
  CreateLeaders self A = Done (tt, A ++ spawned_leaders self).
Proof.
  intros [_ H]. unfold CreateLeaders, spawned_leaders.
  rewrite (for_loop_appends _ _ (fun i => [spawned_leader self i])).
  - now rewrite flat_map_singleton.
  - exact H.
  - intros i A'. apply CreateLeaders_body_runs.
Qed.

Lemma CreateStudents_body_runs (i j : Z) (A : list (AActor (F := F))) :
  CreateStudents_body self i j A = Done (tt, A ++ [spawned_student self i j]).
Proof. reflexivity. Qed.

Lemma TeacherLeaderName_runs (i : Z) :
  0 <= i -> Leaders self <> [] ->
  exists name,
    nth_error (Leaders self) (Z.to_nat (i mod Num (Leaders self))) = Some name /\
    forall B (k : FString -> M B) (A : list (AActor (F := F))),
      TeacherLeaderName self i k A = k name A.
Proof.
  intros Hi Hne. unfold TeacherLeaderName, rem32, Leaders_at.
  assert (Hpos : 0 < Num (Leaders self)).
  { unfold Num. destruct (Leaders self); [congruence | simpl; lia]. }
  destruct (Z.eqb_spec (Num (Leaders self)) 0); [lia|].
  rewrite rem_nonneg by lia.
  pose proof (Z.mod_pos_bound i _ Hpos) as Hb.
  destruct (Z.ltb_spec (i mod Num (Leaders self)) 0); [lia|].
  destruct (nth_error (Leaders self) (Z.to_nat (i mod Num (Leaders self))))
    as [name|] eqn:E.
  - exists name. split; reflexivity.
  - apply nth_error_None in E. unfold Num in *. lia.
Qed.

(** The round hands [Leaders[i mod Leaders.Num()]] to the probe, and then
    makes the teacher and its students. *)
Lemma CreateTeachers_body_probed_runs (i : Z) :
  StudentsPerTeacher self <= INT32_MAX -> Leaders self <> [] -> 0 <= i ->
  exists name,
    nth_error (Leaders self) (Z.to_nat (i mod Num (Leaders self))) = Some name /\
    forall (probe : FString -> M unit) (A : list (AActor (F := F))),
      CreateTeachers_body_probed self probe i A =
      match probe name A with
      | Done (_, A') => Done (tt, A' ++ spawned_class self i)
      | Crash f => Crash f
      end.
Proof.
  intros HS Hne Hi.
  destruct (TeacherLeaderName_runs i Hi Hne) as (name & Hname & Hk).
  exists name. split; [exact Hname|]. intros probe A.
  unfold CreateTeachers_body_probed. rewrite Hk.
  unfold bind at 1. destruct (probe name A) as [[u A']|f]; [|reflexivity].
  unfold bind at 1. unfold CreateAgent at 1.
  rewrite (for_loop_appends _ _ (fun j => [spawned_student self i j])).
  - rewrite flat_map_singleton, <- app_assoc. reflexivity.
  - exact HS.
  - intros j A'' _. apply CreateStudents_body_runs.
Qed.

Lemma CreateTeachers_body_runs (i : Z) (A : list (AActor (F := F))) :
  StudentsPerTeacher self <= INT32_MAX -> Leaders self <> [] -> 0 <= i ->
  CreateTeachers_body self i A = Done (tt, A ++ spawned_class self i).
Proof.
  intros HS Hne Hi. unfold CreateTeachers_body.
  destruct (CreateTeachers_body_probed_runs i HS Hne Hi) as (name & _ & ->).
  reflexivity.
Qed.

Lemma CreateTeachers_body_leaderless (i : Z) (A : list (AActor (F := F))) :
  Leaders self = [] -> CreateTeachers_body self i A = Crash DivideByZero.
Proof.
  intros E.
  unfold CreateTeachers_body, CreateTeachers_body_probed, TeacherLeaderName, rem32.
  rewrite E. reflexivity.
Qed.

Lemma CreateTeachersAndStudents_runs (A : list (AActor (F := F))) :
  TeacherCount self <= INT32_MAX -> StudentsPerTeacher self <= INT32_MAX ->
  has_leader_or_no_teacher self ->
  CreateTeachersAndStudents self A = Done (tt, A ++ spawned_classes self).
Proof.
  intros HT HS [Hne|Hno]; unfold CreateTeachersAndStudents, spawned_classes.
  - apply for_loop_appends; [exact HT|].
    intros i A' Hi. apply CreateTeachers_body_runs; [exact HS | exact Hne | lia].
  - unfold for_loop. rewrite range_nonpos by exact Hno.
    replace (Z.to_nat (TeacherCount self)) with O by lia.
    simpl. unfold ret. now rewrite app_nil_r.
Qed.

(** The whole run: the loops build [spawned_agents]. *)
Lemma CreateAgentWorld_runs :
  wf_config self -> has_leader_or_no_teacher self ->
  CreateAgentWorld self [] = Done (tt, spawned_agents self).
Proof.
  intros (HT & HS & HL) Hok. unfold CreateAgentWorld, bind.
  rewrite CreateLeaders_runs by exact HL.
  rewrite CreateTeachersAndStudents_runs; [reflexivity | apply HT | apply HS | exact Hok].
Qed.

(** ... and with teachers to make and no leader, the first teacher faults. *)
Lemma CreateAgentWorld_leaderless :
  Leaders self = [] -> 0 < TeacherCount self ->
  CreateAgentWorld self [] = Crash DivideByZero.
Proof.
  intros E HT. unfold CreateAgentWorld, bind, CreateLeaders.
  rewrite E. cbn.
  apply for_loop_first_crash; [exact HT|].
  now apply CreateTeachers_body_leaderless.
Qed.

Lemma generate_runs :
  wf_config self -> has_leader_or_no_teacher self ->
  generate self = Done (map placement (spawned_agents self)).
Proof.
  intros Hwf Hok. unfold generate. now rewrite CreateAgentWorld_runs.
Qed.

Lemma generate_leaderless :
  Leaders self = [] -> 0 < TeacherCount self ->
  generate self = Crash DivideByZero.
Proof.
  intros E HT. unfold generate. now rewrite CreateAgentWorld_leaderless.
Qed.

Lemma leaderless_or_not :
  has_leader_or_no_teacher self \/ (Leaders self = [] /\ 0 < TeacherCount self).
Proof.
  unfold has_leader_or_no_teacher.
  destruct (Leaders self) as [|n l]; [|left; left; congruence].
  destruct (Z.le_gt_cases (TeacherCount self) 0); [left; right; assumption|right].
  split; [reflexivity | lia].
Qed.

End Runs.

(** ** The label flag: two runs that differ in [ShowLabels] *)

Section Labels.

Context {F : Type} {S : Scalar F}.

Lemma same_placements_length (A1 A2 : list (AActor (F := F))) :
  same_placements A1 A2 -> List.length A1 = List.length A2.
Proof.
  intros H. apply (f_equal (@List.length _)) in H. now rewrite !length_map in H.
Qed.

Lemma sim_bind {X Y} (m1 m2 : M (F := F) X) (k1 k2 : X -> M (F := F) Y)
    (A1 A2 : list (AActor (F := F))) :
  sim (m1 A1) (m2 A2) ->
  (forall x B1 B2, same_placements B1 B2 -> sim (k1 x B1) (k2 x B2)) ->
  sim (bind m1 k1 A1) (bind m2 k2 A2).
Proof.
  unfold bind, sim at 1. intros Hm Hk.
  destruct (m1 A1) as [[x1 B1]|f1], (m2 A2) as [[x2 B2]|f2]; try contradiction.
  - destruct Hm as [-> HB]. now apply Hk.
  - exact Hm.
Qed.

Lemma sim_for_from (N : Z) (b1 b2 : Z -> M (F := F) unit) :
  (forall i A1 A2, same_placements A1 A2 -> sim (b1 i A1) (b2 i A2)) ->
  forall fuel i A1 A2, same_placements A1 A2 ->
    sim (for_from fuel i N b1 A1) (for_from fuel i N b2 A2).
Proof.
  intros Hb fuel. induction fuel as [|fuel IH]; intros i A1 A2 HA; cbn [for_from].
  - split; [reflexivity | exact HA].
  - destruct (i <? N).
    + apply sim_bind.
      * now apply Hb.
      * intros _ B1 B2 HB. now apply IH.
    + split; [reflexivity | exact HA].
Qed.

Lemma map_placement_set_nth (A : list (AActor (F := F))) (h : nat) (a a' : AActor) :
  nth_error A h = Some a -> placement a' = placement a ->
  map placement (set_nth h a' A) = map placement A.
Proof.
  revert h. induction A as [|x A IH]; intros [|h] E Ha; simpl in *; try discriminate.
  - injection E as ->. now rewrite Ha.
  - now rewrite IH.
Qed.

Lemma sim_CreateCrown (h : nat) (A1 A2 : list (AActor (F := F))) :
  same_placements A1 A2 -> sim (CreateCrown h A1) (CreateCrown h A2).
Proof.
  intros H. pose proof (same_placements_length _ _ H) as HL.
  unfold CreateCrown, sim.
  destruct (nth_error A1 h) as [a1|] eqn:E1, (nth_error A2 h) as [a2|] eqn:E2.
  - split; [reflexivity|]. unfold same_placements in *.
    rewrite (map_placement_set_nth _ _ _ _ E1) by reflexivity.
    rewrite (map_placement_set_nth _ _ _ _ E2) by reflexivity.
    exact H.
  - apply nth_error_None in E2. assert (nth_error A1 h <> None) by congruence.
    apply nth_error_Some in H0. lia.
  - apply nth_error_None in E1. assert (nth_error A2 h <> None) by congruence.
    apply nth_error_Some in H0. lia.
  - reflexivity.
Qed.

Variable self : AAgentWorldStarter (F := F).
Variable b : bool.

Lemma sim_CreateAgent role name pos col sz (A1 A2 : list (AActor (F := F))) :
  same_placements A1 A2 ->
  sim (CreateAgent (set_ShowLabels b self) role name pos col sz A1)
      (CreateAgent self role name pos col sz A2).
Proof.
  intros H. unfold CreateAgent, sim. split.
  - now apply same_placements_length.
  - unfold same_placements in *. rewrite !map_app, H. reflexivity.
Qed.

Lemma sim_CreateLeaders (A1 A2 : list (AActor (F := F))) :
  same_placements A1 A2 ->
  sim (CreateLeaders (set_ShowLabels b self) A1) (CreateLeaders self A2).
Proof.
  intros H. unfold CreateLeaders, for_loop. apply sim_for_from; [|exact H].
  intros i B1 B2 HB. unfold CreateLeaders_body, Leaders_at. cbn [Leaders set_ShowLabels].
  destruct (i <? 0); [reflexivity|].
  destruct (nth_error (Leaders self) (Z.to_nat i)); [|reflexivity].
  apply sim_bind; [now apply sim_CreateAgent|].
  intros h C1 C2 HC. now apply sim_CreateCrown.
Qed.

Lemma sim_CreateTeachersAndStudents (A1 A2 : list (AActor (F := F))) :
  same_placements A1 A2 ->
  sim (CreateTeachersAndStudents (set_ShowLabels b self) A1)
      (CreateTeachersAndStudents self A2).
Proof.
  intros H. unfold CreateTeachersAndStudents, for_loop.
  cbn [TeacherCount set_ShowLabels].
  apply sim_for_from; [|exact H].
  intros i B1 B2 HB.
  unfold CreateTeachers_body, CreateTeachers_body_probed, TeacherLeaderName,
    rem32, Leaders_at.
  cbn [Leaders set_ShowLabels].
  destruct (Num (Leaders self) =? 0); [reflexivity|].
  destruct (Z.rem i (Num (Leaders self)) <? 0); [reflexivity|].
  destruct (nth_error (Leaders self) _); [|reflexivity].
  apply sim_bind; [split; [reflexivity | exact HB]|].
  intros _ B1' B2' HB'.
  apply sim_bind; [now apply sim_CreateAgent|].
  intros h C1 C2 HC. unfold for_loop. cbn [StudentsPerTeacher set_ShowLabels].
  apply sim_for_from; [|exact HC].
  intros j D1 D2 HD. unfold CreateStudents_body.
  apply sim_bind; [now apply sim_CreateAgent|].
  intros h' E1 E2 HE. split; [reflexivity | exact HE].
Qed.

Lemma sim_CreateAgentWorld :
  sim (CreateAgentWorld (set_ShowLabels b self) []) (CreateAgentWorld self []).
Proof.
  unfold CreateAgentWorld. apply sim_bind.
  - now apply sim_CreateLeaders.
  - intros _ B1 B2 HB. now apply sim_CreateTeachersAndStudents.
Qed.

(** C9: the flag [ShowLabels] does not influence the output of [generate]:
    two configurations that differ in nothing but the flag give the same
    outcome, with the same placement records in the same order (the flag
    only decides whether [CreateAgent] attaches a text label). *)
Theorem C9_ShowLabels_does_not_influence_generate :
  generate (set_ShowLabels b self) = generate self.
Proof.
  pose proof sim_CreateAgentWorld as H. unfold generate, sim in *.
  destruct (CreateAgentWorld (set_ShowLabels b self) []) as [[u1 A1]|f1],
           (CreateAgentWorld self []) as [[u2 A2]|f2]; try contradiction.
  - destruct H as [_ H]. unfold same_placements in H. now rewrite H.
  - now rewrite H.
Qed.

End Labels.

(** ** The shape of the output *)

Lemma nth_error_flat_map_block {A B} (f : A -> list B) (n : nat) (l : list A) :
  (forall x, List.length (f x) = n) ->
  forall k j x, nth_error l k = Some x -> (j < n)%nat ->
    nth_error (flat_map f l) (k * n + j) = nth_error (f x) j.
Proof.
  intros Hlen. induction l as [|a l IH]; intros k j x Hk Hj.
  - destruct k; discriminate.
  - destruct k as [|k]; cbn [flat_map].
    + injection Hk as ->. cbn [Nat.mul Nat.add].
      apply nth_error_app1. now rewrite Hlen.
    + cbn [nth_error] in Hk. rewrite nth_error_app2 by (rewrite Hlen; lia).
      rewrite Hlen. replace (Datatypes.S k * n + j - n)%nat with (k * n + j)%nat by lia.
      now apply IH.
Qed.

Lemma count_app {F} (c : Category) (l1 l2 : list (PlacementRecord (F := F))) :
  count c (l1 ++ l2) = (count c l1 + count c l2)%nat.
Proof. unfold count. now rewrite filter_app, length_app. Qed.

Lemma count_map_const {F A} (c k : Category) (f : A -> PlacementRecord (F := F))
    (l : list A) :
  (forall a, category (f a) = k) ->
  count c (map f l) = if Category_eq_dec k c then List.length l else O.
Proof.
  intros Hk. unfold count. induction l as [|a l IH]; cbn [map filter].
  - now destruct (Category_eq_dec k c).
  - rewrite Hk. destruct (Category_eq_dec k c); cbn [List.length]; now rewrite IH.
Qed.

Section Output.

Context {F : Type} {S : Scalar F}.

Variable self : AAgentWorldStarter (F := F).

Lemma spawned_class_length (i : Z) :
  List.length (spawned_class self i) = Datatypes.S (Z.to_nat (StudentsPerTeacher self)).
Proof. unfold spawned_class. cbn. now rewrite length_map, range_length. Qed.

Lemma spawned_leaders_length :
  List.length (spawned_leaders self) = List.length (Leaders self).
Proof.
  unfold spawned_leaders, Num. rewrite length_map, range_length. lia.
Qed.

Lemma nth_spawned_leader (i : Z) :
  0 <= i < Num (Leaders self) ->
  nth_error (spawned_agents self) (Z.to_nat i) = Some (spawned_leader self i).
Proof.
  intros Hi. unfold spawned_agents, Num in *.
  rewrite nth_error_app1 by (rewrite spawned_leaders_length; lia).
  unfold spawned_leaders, Num. rewrite nth_error_map, nth_error_range by lia.
  cbn. now rewrite Z2Nat.id by lia.
Qed.

Lemma nth_spawned_class (i : Z) (k : nat) :
  0 <= i < TeacherCount self ->
  (k <= Z.to_nat (StudentsPerTeacher self))%nat ->
  nth_error (spawned_agents self) (teacher_index self i + k) =
  nth_error (spawned_class self i) k.
Proof.
  intros Hi Hk. unfold spawned_agents, teacher_index.
  rewrite nth_error_app2 by (rewrite spawned_leaders_length; lia).
  rewrite spawned_leaders_length.
  replace (_ + _ + k - _)%nat
    with (Z.to_nat i * Datatypes.S (Z.to_nat (StudentsPerTeacher self)) + k)%nat by lia.
  unfold spawned_classes.
  apply nth_error_flat_map_block.
  - apply spawned_class_length.
  - rewrite nth_error_range by lia. now rewrite Z2Nat.id by lia.
  - lia.
Qed.

Lemma nth_spawned_teacher (i : Z) :
  0 <= i < TeacherCount self ->
  nth_error (spawned_agents self) (teacher_index self i) = Some (spawned_teacher self i).
Proof.
  intros Hi. rewrite <- (Nat.add_0_r (teacher_index self i)).
  rewrite nth_spawned_class by lia. reflexivity.
Qed.

Lemma nth_spawned_student (i j : Z) :
  0 <= i < TeacherCount self -> 0 <= j < StudentsPerTeacher self ->
  nth_error (spawned_agents self) (student_index self i j) =
  Some (spawned_student self i j).
Proof.
  intros Hi Hj. unfold student_index. rewrite <- Nat.add_assoc.
  rewrite nth_spawned_class by lia.
  unfold spawned_class. cbn [Nat.add nth_error].
  rewrite nth_error_map, nth_error_range by lia.
  cbn. now rewrite Z2Nat.id by lia.
Qed.

(** Every actor of the output is one of the three kinds. *)
Lemma in_spawned_agents (a : AActor) :
  In a (spawned_agents self) ->
  (exists i, 0 <= i < Num (Leaders self) /\ a = spawned_leader self i) \/
  (exists i, 0 <= i < TeacherCount self /\ a = spawned_teacher self i) \/
  (exists i j, 0 <= i < TeacherCount self /\ 0 <= j < StudentsPerTeacher self /\
               a = spawned_student self i j).
Proof.
  unfold spawned_agents. rewrite in_app_iff. intros [H|H].
  - left. unfold spawned_leaders in H. apply in_map_iff in H as (i & <- & Hi).
    exists i. split; [now apply in_range | reflexivity].
  - right. unfold spawned_classes in H. apply in_flat_map in H as (i & Hi & H).
    apply in_range in Hi. destruct H as [<-|H].
    + left. now exists i.
    + right. apply in_map_iff in H as (j & <- & Hj). apply in_range in Hj.
      now exists i, j.
Qed.

Lemma count_spawned_class (c : Category) (i : Z) :
  count c (map placement (spawned_class self i)) =
  match c with
  | Leader => O
  | Teacher => 1%nat
  | Student => Z.to_nat (StudentsPerTeacher self)
  end.
Proof.
  unfold spawned_class. cbn [map]. rewrite map_map.
  change (placement (spawned_teacher self i) :: ?l)
    with ([placement (spawned_teacher self i)] ++ l).
  rewrite count_app, (count_map_const c Student) by reflexivity.
  rewrite range_length. destruct c; reflexivity.
Qed.

Lemma count_spawned_classes (c : Category) (l : list Z) :
  count c (map placement (flat_map (spawned_class self) l)) =
  (List.length l *
   match c with
   | Leader => O
   | Teacher => 1%nat
   | Student => Z.to_nat (StudentsPerTeacher self)
   end)%nat.
Proof.
  induction l as [|i l IH]; [reflexivity|].
  cbn [flat_map List.length]. rewrite map_app, count_app, IH, count_spawned_class. lia.
Qed.

Lemma count_spawned_agents (c : Category) :
  count c (map placement (spawned_agents self)) =
  match c with
  | Leader => List.length (Leaders self)
  | Teacher => Z.to_nat (TeacherCount self)
  | Student => (Z.to_nat (TeacherCount self) * Z.to_nat (StudentsPerTeacher self))%nat
  end.
Proof.
  unfold spawned_agents, spawned_classes.
  rewrite map_app, count_app, count_spawned_classes, range_length.
  unfold spawned_leaders. rewrite map_map.
  rewrite (count_map_const c Leader) by reflexivity.
  rewrite range_length. unfold Num. rewrite Nat2Z.id.
  destruct c; cbn; lia.
Qed.

End Output.

(** ** Exact real arithmetic *)

Lemma Q2R_integer (z : Z) : Q2R (inject_Z z) = IZR z.
Proof. unfold Q2R, inject_Z. cbn. lra. Qed.

#[export] Instance R_ExactScalar : ExactScalar R.
Proof.
  split; cbn; intros.
  - change 0%Q with (inject_Z 0). rewrite Q2R_integer. lra.
  - change 0%Q with (inject_Z 0). rewrite Q2R_integer. lra.
  - lra.
  - lra.
Qed.

Ltac wf_concrete :=
  unfold wf_config, int32, INT32_MIN, INT32_MAX, Num; cbn; lia.

(** * The claims *)

Section Counts.

Context {F : Type} {S : Scalar F}.

Variable self : AAgentWorldStarter (F := F).

(** C1 (amended): when the leader list is not empty, or no teacher is asked
    for, [generate] returns, and its output has exactly [len(leaderNames)]
    Leader records, [max(teacherCount,0)] Teacher records and
    [max(teacherCount,0) * max(studentsPerTeacher,0)] Student records. *)
Theorem C1_counts_of_generate :
  wf_config self -> has_leader_or_no_teacher self ->
  exists out,
    generate self = Done out /\
    count Leader out = List.length (Leaders self) /\
    count Teacher out = Z.to_nat (Z.max (TeacherCount self) 0) /\
    count Student out =
      Z.to_nat (Z.max (TeacherCount self) 0 * Z.max (StudentsPerTeacher self) 0).
Proof.
  intros Hwf Hok. exists (map placement (spawned_agents self)).
  split; [now apply generate_runs|].
  rewrite !count_spawned_agents. split; [reflexivity|]. split.
  - lia.
  - rewrite Z2Nat.inj_mul by lia.
    replace (Z.to_nat (Z.max (TeacherCount self) 0))
      with (Z.to_nat (TeacherCount self)) by lia.
    replace (Z.to_nat (Z.max (StudentsPerTeacher self) 0))
      with (Z.to_nat (StudentsPerTeacher self)) by lia.
    reflexivity.
Qed.

End Counts.

Lemma C1_counts_of_generate_witness :
  wf_config default_config /\ has_leader_or_no_teacher default_config /\
  exists out,
    generate default_config = Done out /\
    count Leader out = 5%nat /\ count Teacher out = 20%nat /\
    count Student out = 40%nat.
Proof.
  assert (Hwf : wf_config default_config) by wf_concrete.
  assert (Hok : has_leader_or_no_teacher default_config) by (left; discriminate).
  split; [exact Hwf|]. split; [exact Hok|].
  exact (C1_counts_of_generate default_config Hwf Hok).
Defined.

(** C1 as stated fails where a teacher is asked for and the leader list is
    empty: the run faults at [Leaders[i % Leaders.Num()]] and returns no
    record at all. *)
Lemma C1_leaderless_counterexample :
  ~ exists out,
      generate (leaderless_config 1 2) = Done out /\
      count Leader out = List.length (Leaders (leaderless_config 1 2)) /\
      count Teacher out = Z.to_nat (Z.max 1 0) /\
      count Student out = Z.to_nat (Z.max 1 0 * Z.max 2 0).
Proof.
  intros (out & H & _).
  rewrite generate_leaderless in H; [discriminate | reflexivity | reflexivity].
Qed.

(** ** Positions, sizes and names of the records *)

Section Records.

Context {F : Type} {S : Scalar F}.

Variable self : AAgentWorldStarter (F := F).

(** A run either returns the records of [spawned_agents], or faults at the
    first teacher for want of a leader. *)
Lemma generate_cases :
  wf_config self ->
  (has_leader_or_no_teacher self /\
   generate self = Done (map placement (spawned_agents self))) \/
  (Leaders self = [] /\ 0 < TeacherCount self /\
   generate self = Crash DivideByZero).
Proof.
  intros Hwf. destruct (leaderless_or_not self) as [Hok|[E HT]].
  - left. split; [exact Hok | now apply generate_runs].
  - right. repeat split; try assumption. now apply generate_leaderless.
Qed.

Lemma TeacherName_in_range (i : Z) :
  wf_config self -> 0 <= i < TeacherCount self ->
  TeacherName i = ("Teacher_" ++ fmt_d (i + 1))%string.
Proof.
  intros ([_ HT] & _) Hi. unfold TeacherName. rewrite add32_succ by lia. reflexivity.
Qed.

Lemma StudentName_in_range (i j : Z) :
  wf_config self -> 0 <= i < TeacherCount self -> 0 <= j < StudentsPerTeacher self ->
  StudentName i j =
  ("Teacher_" ++ fmt_d (i + 1) ++ "_Student_" ++ fmt_d (j + 1))%string.
Proof.
  intros ([_ HT] & [_ HS] & _) Hi Hj. unfold StudentName.
  rewrite !add32_succ by lia. reflexivity.
Qed.

Lemma sizes_by_category (r : PlacementRecord) :
  In r (map placement (spawned_agents self)) ->
  size r = match category r with
           | Leader => fmul (AgentSize self) (lit 1.5)
           | Teacher => AgentSize self
           | Student => fmul (AgentSize self) (lit 0.8)
           end.
Proof.
  intros H. apply in_map_iff in H as (a & <- & Ha).
  apply in_spawned_agents in Ha
    as [(i & _ & ->)|[(i & _ & ->)|(i & j & _ & _ & ->)]]; reflexivity.
Qed.

(** C3: for every teacher index [i] and student index [j] with
    [0 <= j < studentsPerTeacher], the [j]-th student of teacher [i] stands at
    the teacher's position plus the offset
    [(cos(angle) * spacing, sin(angle) * spacing, 0)], where [angle] is
    [j * 360 / studentsPerTeacher] degrees converted to radians, and every
    student has size [agentSize * 0.8].  (A run that returns no record has an
    empty leader list.) *)
Theorem C3_student_on_circle (i j : Z) :
  wf_config self ->
  0 <= i < TeacherCount self -> 0 <= j < StudentsPerTeacher self ->
  match generate self with
  | Done out =>
      exists t s,
        nth_error out (teacher_index self i) = Some t /\
        category t = Teacher /\
        id t = ("Teacher_" ++ fmt_d (i + 1))%string /\
        nth_error out (student_index self i j) = Some s /\
        category s = Student /\
        id s = ("Teacher_" ++ fmt_d (i + 1) ++ "_Student_" ++ fmt_d (j + 1))%string /\
        (let degrees :=
           fdiv (fmul (ofInt j) (lit 360)) (ofInt (StudentsPerTeacher self)) in
         let angle := fdiv (fmul degrees PI) (lit 180) in
         position s =
         FVector_plus (position t)
           (mkFVector (fmul (FMath_Cos angle) (Spacing self))
                      (fmul (FMath_Sin angle) (Spacing self)) (lit 0))) /\
        (forall r, In r out -> category r = Student ->
                   size r = fmul (AgentSize self) (lit 0.8))
  | Crash _ => Leaders self = []
  end.
Proof.
  intros Hwf Hi Hj.
  destruct (generate_cases Hwf) as [[_ ->]|(E & _ & ->)]; [|exact E].
  exists (placement (spawned_teacher self i)), (placement (spawned_student self i j)).
  rewrite !nth_error_map, nth_spawned_teacher, nth_spawned_student by assumption.
  cbn [option_map placement spawned_teacher spawned_student ActorLabel Kind
       ActorLocation id category position].
  rewrite TeacherName_in_range, StudentName_in_range by assumption.
  repeat split.
  intros r Hr Hc. rewrite (sizes_by_category r Hr), Hc. reflexivity.
Qed.

Context {E : ExactScalar F}.



End Records.

(** ** Identifiers *)

Lemma NoDup_flat_map {A B} (f : A -> list B) (l : list A) :
  NoDup l ->
  (forall x, In x l -> NoDup (f x)) ->
  (forall x y b, In x l -> In y l -> In b (f x) -> In b (f y) -> x = y) ->
  NoDup (flat_map f l).
Proof.
  induction 1 as [|a l Ha Hl IH]; intros Hf Hx; cbn [flat_map].
  - constructor.
  - apply NoDup_app.
    + apply Hf. now left.
    + apply IH.
      * intros x Hin. apply Hf. now right.
      * intros x y b Hin Hin'. apply Hx; now right.
    + intros b Hb Hb'. apply in_flat_map in Hb' as (y & Hy & Hby).
      assert (a = y) by (apply (Hx a y b); [now left | now right | assumption..]).
      subst y. contradiction.
Qed.

Lemma map_nth_range (l : list FString) :
  map (fun i => nth (Z.to_nat i) l ""%string) (range (Num l)) = l.
Proof.
  unfold range, Num. rewrite Nat2Z.id, map_map.
  erewrite map_ext by (intros k; rewrite Nat2Z.id; reflexivity).
  apply nth_ext with (d := ""%string) (d' := ""%string).
  - now rewrite length_map, length_seq.
  - intros n Hn. rewrite length_map, length_seq in Hn.
    rewrite (nth_indep _ _ (nth 0 l ""%string)) by now rewrite length_map, length_seq.
    rewrite (map_nth (fun k => nth k l ""%string)), seq_nth by exact Hn.
    reflexivity.
Qed.

Lemma prefix_split (p s : string) :
  String.prefix p s = true -> exists r, s = (p ++ r)%string.
Proof.
  revert s. induction p as [|a p IH]; intros s H.
  - exists s. reflexivity.
  - destruct s as [|b s]; [discriminate|]. cbn in H.
    destruct (ascii_dec a b) as [->|]; [|discriminate].
    destruct (IH s H) as (r & ->). now exists r.
Qed.

Lemma append_assoc (a b c : string) : ((a ++ b) ++ c = a ++ (b ++ c))%string.
Proof. induction a as [|x a IH]; simpl; [reflexivity | now rewrite IH]. Qed.

Lemma teacher_id_inj (a b : Z) :
  ("Teacher_" ++ fmt_d a = "Teacher_" ++ fmt_d b)%string -> a = b.
Proof. intros H. apply append_inj_l in H. now apply fmt_d_inj. Qed.

Lemma student_id_cut (a b : Z) (r r' : string) :
  ("Teacher_" ++ fmt_d a ++ "_" ++ r = "Teacher_" ++ fmt_d b ++ "_" ++ r')%string ->
  a = b /\ r = r'.
Proof.
  intros H. apply append_inj_l in H.
  apply append_cut in H as [H1 H2]; try apply fmt_d_no_underscore.
  split; [now apply fmt_d_inj | exact H2].
Qed.

Lemma student_id_inj (a b a' b' : Z) :
  ("Teacher_" ++ fmt_d a ++ "_Student_" ++ fmt_d b =
   "Teacher_" ++ fmt_d a' ++ "_Student_" ++ fmt_d b')%string ->
  a = a' /\ b = b'.
Proof.
  intros H.
  apply (student_id_cut a a' ("Student_" ++ fmt_d b) ("Student_" ++ fmt_d b')) in H
    as [H1 H2].
  split; [exact H1|]. apply append_inj_l in H2. now apply fmt_d_inj.
Qed.

Lemma teacher_id_not_student_id (a a' b' : Z) :
  ("Teacher_" ++ fmt_d a)%string <>
  ("Teacher_" ++ fmt_d a' ++ "_Student_" ++ fmt_d b')%string.
Proof.
  intros H. apply append_inj_l in H.
  pose proof (fmt_d_no_underscore a) as Hn. rewrite H in Hn.
  change ("_Student_" ++ fmt_d b')%string
    with (String "_" ("Student_" ++ fmt_d b')) in Hn.
  now rewrite occurs_append in Hn.
Qed.

Lemma student_id_has_parent (a a' b : Z) :
  String.prefix (("Teacher_" ++ fmt_d a') ++ "_Student_")
    ("Teacher_" ++ fmt_d a ++ "_Student_" ++ fmt_d b) = true ->
  a' = a.
Proof.
  intros H. apply prefix_split in H as (r & H).
  rewrite !append_assoc in H. symmetry in H.
  now apply (student_id_cut a' a ("Student_" ++ r) ("Student_" ++ fmt_d b)) in H.
Qed.

(** Without students, the teachers follow one another. *)
Lemma spawned_classes_no_student {F} {S : Scalar F} (self : AAgentWorldStarter) :
  StudentsPerTeacher self <= 0 ->
  spawned_classes self = map (spawned_teacher self) (range (TeacherCount self)).
Proof.
  intros H. unfold spawned_classes, spawned_class.
  rewrite (range_nonpos _ H). cbn [map]. apply flat_map_singleton.
Qed.

(** The records of such a run are the same under any division. *)
Lemma placements_no_student {F} {S : Scalar F} (self : AAgentWorldStarter)
    (d : F -> F -> F) :
  StudentsPerTeacher self <= 0 ->
  map placement (spawned_agents (S := with_fdiv S d) self) =
  map placement (spawned_agents self).
Proof.
  intros H. unfold spawned_agents.
  rewrite (spawned_classes_no_student (S := S)) by exact H.
  rewrite (spawned_classes_no_student (S := with_fdiv S d)) by exact H.
  unfold spawned_leaders. rewrite !map_app, !map_map. reflexivity.
Qed.

Section Totality.

Context {F : Type} {S : Scalar F}.

Variable self : AAgentWorldStarter (F := F).

(** C6 (amended): [generate] is total over the well-formed configurations
    whose leader list is not empty or that ask for no teacher.  When
    [studentsPerTeacher = 0] the student loop does not run: the output is the
    leaders followed by the teachers, with zero students, and it is the same
    whatever the division operator does, so the division by
    [studentsPerTeacher] is never evaluated. *)
Theorem C6_generate_total_with_leaders :
  wf_config self -> has_leader_or_no_teacher self ->
  (exists out, generate self = Done out) /\
  (StudentsPerTeacher self = 0 ->
   exists out,
     generate self = Done out /\
     out = map placement
             (spawned_leaders self ++
              map (spawned_teacher self) (range (TeacherCount self))) /\
     count Teacher out = Z.to_nat (Z.max (TeacherCount self) 0) /\
     count Student out = O /\
     forall d : F -> F -> F, generate (S := with_fdiv S d) self = Done out).
Proof.
  intros Hwf Hok. split.
  - eexists. now apply generate_runs.
  - intros H0. exists (map placement (spawned_agents self)).
    split; [now apply generate_runs|].
    rewrite !count_spawned_agents, H0.
    repeat split.
    + unfold spawned_agents. rewrite spawned_classes_no_student by lia. reflexivity.
    + lia.
    + lia.
    + intros d. rewrite (generate_runs (S := with_fdiv S d)) by assumption.
      rewrite placements_no_student by lia. reflexivity.
Qed.

(** C7 (amended): with a leader list that is not empty, round [i] of the
    teacher loop binds its local [LeaderName] round-robin, to
    [Leaders[i mod leaderCount]]: whatever stands at the binding is handed
    that name, before the teacher and its students are made.  The loop of
    [generate] runs these rounds with nothing at the binding, and [generate]
    returns with all its teachers.  With an empty leader list [generate]
    returns when no teacher is asked for. *)
Theorem C7_round_robin_leader :
  wf_config self ->
  CreateTeachersAndStudents self =
    for_loop (TeacherCount self) (CreateTeachers_body_probed self (fun _ => ret tt)) /\
  (Leaders self <> [] ->
   (forall i, 0 <= i < TeacherCount self ->
      exists name,
        nth_error (Leaders self) (Z.to_nat (i mod Num (Leaders self))) = Some name /\
        forall (probe : FString -> M unit) (A : list AActor),
          CreateTeachers_body_probed self probe i A =
          match probe name A with
          | Done (_, A') => Done (tt, A' ++ spawned_class self i)
          | Crash f => Crash f
          end) /\
   exists out,
     generate self = Done out /\
     count Teacher out = Z.to_nat (Z.max (TeacherCount self) 0) /\
     forall i, 0 <= i < TeacherCount self ->
       nth_error out (teacher_index self i) = Some (placement (spawned_teacher self i))) /\
  (Leaders self = [] -> TeacherCount self <= 0 -> generate self = Done []).
Proof.
  intros Hwf. split; [reflexivity|]. split.
  - intros Hne. split.
    + intros i Hi. apply CreateTeachers_body_probed_runs; [apply Hwf | exact Hne | lia].
    + exists (map placement (spawned_agents self)).
      split; [apply generate_runs; [exact Hwf | now left]|].
      rewrite count_spawned_agents. split; [lia|].
      intros i Hi. now rewrite nth_error_map, nth_spawned_teacher.
  - intros E HT. rewrite generate_runs; [|exact Hwf | now right].
    unfold spawned_agents, spawned_leaders, spawned_classes.
    rewrite E, (range_nonpos _ HT). reflexivity.
Qed.

(** The identifiers of a run. *)
Lemma ids_spawned_agents :
  ids (map placement (spawned_agents self)) =
  map (fun name => ("Leader_" ++ name)%string) (Leaders self) ++
  flat_map (fun i => TeacherName i :: map (StudentName i) (range (StudentsPerTeacher self)))
    (range (TeacherCount self)).
Proof.
  unfold ids, spawned_agents. rewrite map_map, map_app. f_equal.
  - unfold spawned_leaders. rewrite map_map. cbn [placement spawned_leader ActorLabel id].
    rewrite <- (map_nth_range (Leaders self)) at 2. now rewrite map_map.
  - unfold spawned_classes. rewrite !flat_map_concat_map, concat_map, map_map.
    f_equal. apply map_ext. intros i. unfold spawned_class. cbn [map].
    now rewrite map_map.
Qed.

(** C8 (amended): when the leader names are pairwise distinct, all [id]
    values of the output are pairwise distinct, across leaders, teachers and
    students.  (A run that returns no record has an empty leader list.) *)
Theorem C8_ids_pairwise_distinct :
  wf_config self -> NoDup (Leaders self) ->
  match generate self with
  | Done out => NoDup (ids out)
  | Crash _ => Leaders self = []
  end.
Proof.
  intros Hwf Hnd.
  destruct (leaderless_or_not self) as [Hok|[E HT]].
  2:{ rewrite generate_leaderless by assumption. exact E. }
  rewrite generate_runs by assumption.
  rewrite ids_spawned_agents. apply NoDup_app.
  - apply Injective_map_NoDup; [|exact Hnd].
    intros a b H. now apply append_inj_l in H.
  - apply NoDup_flat_map.
    + apply NoDup_range.
    + intros i Hi. apply in_range in Hi. constructor.
      * intros Hin. apply in_map_iff in Hin as (j & Hj & _).
        symmetry in Hj. now apply teacher_id_not_student_id in Hj.
      * apply NoDup_map_NoDup_ForallPairs; [|apply NoDup_range].
        intros j j' Hj Hj' H. apply in_range in Hj, Hj'.
        rewrite !(StudentName_in_range self) in H by assumption.
        apply student_id_inj in H. lia.
    + intros i i' b Hi Hi' Hb Hb'. apply in_range in Hi, Hi'.
      destruct Hb as [<-|Hb], Hb' as [Hb'|Hb'].
      * rewrite !(TeacherName_in_range self) in Hb' by assumption.
        apply teacher_id_inj in Hb'. lia.
      * apply in_map_iff in Hb' as (j & Hj & _).
        symmetry in Hj. now apply teacher_id_not_student_id in Hj.
      * subst b. apply in_map_iff in Hb as (j & Hj & _).
        symmetry in Hj. now apply teacher_id_not_student_id in Hj.
      * apply in_map_iff in Hb as (j & <- & Hj).
        apply in_map_iff in Hb' as (j' & H & Hj').
        apply in_range in Hj, Hj'.
        rewrite !(StudentName_in_range self) in H by assumption.
        apply student_id_inj in H. lia.
  - intros a Ha Hb. apply in_map_iff in Ha as (name & <- & _).
    apply in_flat_map in Hb as (i & _ & [H|H]).
    + discriminate H.
    + apply in_map_iff in H as (j & H & _). discriminate H.
Qed.

End Totality.

Section Identifiers.

Context {F : Type} {S : Scalar F}.

Variable self : AAgentWorldStarter (F := F).

(** C10: the identifiers have fixed formats.  Each leader's [id] is
    ["Leader_"] followed by its configured name, the [i]-th teacher's [id] is
    ["Teacher_"] followed by [i+1], and the [id] of its [j]-th student is the
    teacher's [id] followed by ["_Student_"] and [j+1]; so the teacher's [id]
    is a strict prefix of the student's, and the parent is recovered from the
    student's [id] alone: it is the one teacher whose [id], followed by
    ["_Student_"], starts it.  (A run that returns no record has an empty
    leader list and a teacher to make.) *)
Theorem C10_id_formats :
  wf_config self ->
  match generate self with
  | Done out =>
      (forall r, In r out ->
         match category r with
         | Leader =>
             exists name, In name (Leaders self) /\ id r = ("Leader_" ++ name)%string
         | Teacher =>
             exists i, 0 <= i < TeacherCount self /\
                       id r = ("Teacher_" ++ fmt_d (i + 1))%string
         | Student =>
             exists i j, 0 <= i < TeacherCount self /\
                         0 <= j < StudentsPerTeacher self /\
                         id r = (("Teacher_" ++ fmt_d (i + 1)) ++
                                 "_Student_" ++ fmt_d (j + 1))%string
         end) /\
      (forall i, 0 <= i < Num (Leaders self) ->
         exists r name,
           nth_error out (Z.to_nat i) = Some r /\ category r = Leader /\
           nth_error (Leaders self) (Z.to_nat i) = Some name /\
           id r = ("Leader_" ++ name)%string) /\
      (forall i, 0 <= i < TeacherCount self ->
         exists t,
           nth_error out (teacher_index self i) = Some t /\ category t = Teacher /\
           id t = ("Teacher_" ++ fmt_d (i + 1))%string /\
           forall j, 0 <= j < StudentsPerTeacher self ->
             exists s,
               nth_error out (student_index self i j) = Some s /\
               category s = Student /\
               id s = (id t ++ "_Student_" ++ fmt_d (j + 1))%string /\
               String.prefix (id t) (id s) = true /\
               (String.length (id t) < String.length (id s))%nat /\
               forall t', In t' out -> category t' = Teacher ->
                 String.prefix (id t' ++ "_Student_") (id s) = true -> id t' = id t)
  | Crash _ => Leaders self = [] /\ 0 < TeacherCount self
  end.
Proof.
  intros Hwf.
  destruct (generate_cases self Hwf) as [[_ ->]|(E & HT & ->)]; [|now split].
  assert (Hall : forall r, In r (map placement (spawned_agents self)) ->
    match category r with
    | Leader => exists name, In name (Leaders self) /\ id r = ("Leader_" ++ name)%string
    | Teacher => exists i, 0 <= i < TeacherCount self /\
                           id r = ("Teacher_" ++ fmt_d (i + 1))%string
    | Student => exists i j, 0 <= i < TeacherCount self /\
                             0 <= j < StudentsPerTeacher self /\
                             id r = (("Teacher_" ++ fmt_d (i + 1)) ++
                                     "_Student_" ++ fmt_d (j + 1))%string
    end).
  { intros r Hr. apply in_map_iff in Hr as (a & <- & Ha).
    apply in_spawned_agents in Ha
      as [(i & Hi & ->)|[(i & Hi & ->)|(i & j & Hi & Hj & ->)]];
      cbn [placement category id spawned_leader spawned_teacher spawned_student
           Kind ActorLabel].
    - eexists. split; [|reflexivity]. apply nth_In. unfold Num in Hi. lia.
    - exists i. split; [exact Hi | now apply (TeacherName_in_range self)].
    - exists i, j. repeat split; try lia.
      rewrite (StudentName_in_range self) by assumption. now rewrite append_assoc. }
  split; [exact Hall|]. split.
  - intros i Hi.
    destruct (nth_error (Leaders self) (Z.to_nat i)) as [name|] eqn:En.
    2:{ apply nth_error_None in En. unfold Num in Hi. lia. }
    exists (placement (spawned_leader self i)), name.
    rewrite nth_error_map, nth_spawned_leader by assumption.
    cbn [option_map placement spawned_leader ActorLabel Kind id category].
    assert (Hname : @nth FString (Z.to_nat i) (Leaders self) ""%string = name)
      by exact (nth_error_nth _ _ _ En).
    rewrite Hname. repeat split.
  - intros i Hi. exists (placement (spawned_teacher self i)).
    rewrite nth_error_map, nth_spawned_teacher by assumption.
    cbn [option_map placement spawned_teacher ActorLabel Kind id category].
    rewrite (TeacherName_in_range self) by assumption.
    repeat split.
    intros j Hj. exists (placement (spawned_student self i j)).
    rewrite nth_error_map, nth_spawned_student by assumption.
    cbn [option_map placement spawned_student ActorLabel Kind id category].
    rewrite (StudentName_in_range self) by assumption.
    rewrite <- append_assoc.
    repeat split.
    + apply prefix_append.
    + rewrite (length_append ("Teacher_" ++ fmt_d (i + 1))).
      change ("_Student_" ++ fmt_d (j + 1))%string
        with (String "_" ("Student_" ++ fmt_d (j + 1))).
      cbn [String.length]. lia.
    + intros t' Ht' Hc Hp. specialize (Hall t' Ht'). rewrite Hc in Hall.
      destruct Hall as (i' & Hi' & Hid). rewrite Hid in Hp |- *.
      rewrite append_assoc in Hp.
      apply student_id_has_parent in Hp. now rewrite Hp.
Qed.

End Identifiers.

(** ** The claims at the declared property values *)

Lemma default_config_wf : wf_config default_config.
Proof. wf_concrete. Defined.

Lemma C3_student_on_circle_witness :
  wf_config default_config /\ 0 <= 7 < 20 /\ 0 <= 1 < 2 /\
  exists out t s,
    generate default_config = Done out /\
    nth_error out (teacher_index default_config 7) = Some t /\
    nth_error out (student_index default_config 7 1) = Some s /\
    id s = "Teacher_8_Student_2"%string /\
    position s = FVector_plus (position t) (StudentOffset default_config 1) /\
    size s = (50 * Q2R 0.8)%R.
Proof.
  assert (Hi : 0 <= 7 < 20) by lia.
  assert (Hj : 0 <= 1 < 2) by lia.
  split; [exact default_config_wf|]. split; [exact Hi|]. split; [exact Hj|].
  pose proof (C3_student_on_circle default_config 7 1 default_config_wf Hi Hj) as H.
  destruct (generate default_config) as [out|f]; [|discriminate H].
  destruct H as (t & s & Ht & _ & _ & Hs & Hc & Hid & Hpos & Hsize).
  exists out, t, s. repeat split; try assumption.
  apply Hsize; [|exact Hc]. exact (nth_error_In _ _ Hs).
Defined.



Lemma C6_generate_total_with_leaders_witness :
  wf_config no_student_config /\ has_leader_or_no_teacher no_student_config /\
  exists out,
    generate no_student_config = Done out /\
    count Teacher out = 3%nat /\ count Student out = 0%nat /\
    generate (S := with_fdiv R_Scalar (fun _ _ => 0%R)) no_student_config = Done out.
Proof.
  assert (Hwf : wf_config no_student_config) by wf_concrete.
  assert (Hok : has_leader_or_no_teacher no_student_config) by (left; discriminate).
  split; [exact Hwf|]. split; [exact Hok|].
  destruct (C6_generate_total_with_leaders no_student_config Hwf Hok) as [_ H].
  destruct (H eq_refl) as (out & Hgen & _ & HT & HS & Hd).
  exists out. exact (conj Hgen (conj HT (conj HS (Hd _)))).
Defined.

(** C6 as stated fails: an input with a teacher to make and no leader faults
    at [Leaders[i % Leaders.Num()]], also when [studentsPerTeacher = 0]. *)
Lemma C6_leaderless_counterexample :
  wf_config (leaderless_config 1 0) /\
  StudentsPerTeacher (leaderless_config 1 0) = 0 /\
  generate (leaderless_config 1 0) = Crash DivideByZero.
Proof.
  split; [wf_concrete|]. split; [reflexivity|].
  apply generate_leaderless; reflexivity.
Qed.

Lemma C7_round_robin_leader_witness :
  wf_config default_config /\ Leaders default_config <> [] /\
  (forall (probe : FString -> M unit) (A : list AActor),
     CreateTeachers_body_probed default_config probe 7 A =
     match probe "mistral"%string A with
     | Done (_, A') => Done (tt, A' ++ spawned_class default_config 7)
     | Crash f => Crash f
     end) /\
  exists out, generate default_config = Done out /\ count Teacher out = 20%nat.
Proof.
  assert (Hne : Leaders default_config <> []) by discriminate.
  split; [exact default_config_wf|]. split; [exact Hne|].
  destruct (C7_round_robin_leader default_config default_config_wf) as (_ & H & _).
  destruct (H Hne) as [Hrr (out & Hgen & Hcount & _)].
  split.
  - destruct (Hrr 7 ltac:(cbn; lia)) as (name & Hname & Hk).
    injection Hname as <-. exact Hk.
  - exists out. split; assumption.
Defined.

(** C7 as stated fails: with an empty leader list and teachers to make,
    [generate] faults at the first teacher instead of making the teachers
    ungrouped. *)
Lemma C7_leaderless_counterexample :
  wf_config (leaderless_config 3 2) /\
  Leaders (leaderless_config 3 2) = [] /\
  generate (leaderless_config 3 2) = Crash DivideByZero.
Proof.
  split; [wf_concrete|]. split; [reflexivity|].
  apply generate_leaderless; reflexivity.
Qed.

Lemma default_leaders_distinct : NoDup (Leaders default_config).
Proof.
  repeat (constructor; [cbn; intuition discriminate|]). constructor.
Defined.

Lemma C8_ids_pairwise_distinct_witness :
  wf_config default_config /\ NoDup (Leaders default_config) /\
  exists out, generate default_config = Done out /\ NoDup (ids out).
Proof.
  split; [exact default_config_wf|].
  split; [exact default_leaders_distinct|].
  pose proof (C8_ids_pairwise_distinct default_config default_config_wf
                default_leaders_distinct) as H.
  destruct (generate default_config) as [out|f]; [|discriminate H].
  exists out. split; [reflexivity | exact H].
Defined.

(** C8 as stated fails: a leader name that is configured twice gives the
    same [id] twice. *)
Lemma C8_twin_counterexample :
  wf_config twin_config /\
  exists out,
    generate twin_config = Done out /\
    ids out = ["Leader_phi"; "Leader_phi"]%string /\
    ~ NoDup (ids out).
Proof.
  assert (Hwf : wf_config twin_config) by wf_concrete.
  split; [exact Hwf|].
  exists (map placement (spawned_agents twin_config)).
  split; [apply generate_runs; [exact Hwf | left; discriminate]|].
  rewrite ids_spawned_agents.
  split; [reflexivity|].
  cbn. intros H. inversion H as [|x l Hin _]. apply Hin. now left.
Qed.

Lemma C10_id_formats_witness :
  wf_config default_config /\
  exists out t s,
    generate default_config = Done out /\
    nth_error out (teacher_index default_config 7) = Some t /\
    id t = "Teacher_8"%string /\
    nth_error out (student_index default_config 7 1) = Some s /\
    id s = "Teacher_8_Student_2"%string /\
    String.prefix (id t) (id s) = true.
Proof.
  split; [exact default_config_wf|].
  pose proof (C10_id_formats default_config default_config_wf) as H.
  destruct (generate default_config) as [out|f]; [|destruct H as [H _]; discriminate H].
  destruct H as (_ & _ & H).
  destruct (H 7 ltac:(cbn; lia)) as (t & Ht & _ & Hid & Hst).
  destruct (Hst 1 ltac:(cbn; lia)) as (s & Hs & _ & Hids & Hp & _).
  exists out, t, s. rewrite Hid in Hids. repeat split; assumption.
Defined.

(** ** Single precision: the sine and cosine that the example needs *)

Lemma powerRZ2_le (n m : Z) : n <= m -> (powerRZ 2 n <= powerRZ 2 m)%R.
Proof.
  intros H. replace m with (n + Z.of_nat (Z.to_nat (m - n))) by lia.
  rewrite powerRZ_add by lra. rewrite <- pow_powerRZ.
  pose proof (powerRZ_lt 2 n ltac:(lra)) as Hp.
  pose proof (pow_R1_Rle 2 (Z.to_nat (m - n)) ltac:(lra)) as H1.
  nra.
Qed.

Lemma find_exp_eq (y : R) (k : Z) :
  (powerRZ 2 (k + 23) <= y < powerRZ 2 (k + 24))%R ->
  forall fuel e, k <= e -> e - k <= Z.of_nat fuel -> find_exp fuel e y = k.
Proof.
  intros [Hlo Hhi] fuel. induction fuel as [|fuel IH]; intros e Hke Hf.
  - cbn. lia.
  - cbn [find_exp]. destruct (Rle_dec (powerRZ 2 (e + 23)) y) as [H|H].
    + destruct (Z.eq_dec e k) as [->|Hne]; [reflexivity|].
      exfalso. assert (powerRZ 2 (k + 24) <= powerRZ 2 (e + 23))%R
        by (apply powerRZ2_le; lia).
      lra.
    + destruct (Z.eq_dec e k) as [->|Hne]; [contradiction|].
      apply IH; lia.
Qed.

Lemma Znearest_even_eq (y : R) (m : Z) :
  (IZR m - 1 / 2 < y < IZR m + 1 / 2)%R -> Znearest_even y = m.
Proof.
  intros [Hlo Hhi]. unfold Znearest_even.
  pose proof (base_Int_part y) as [H1 H2].
  set (f := Int_part y) in *.
  assert (Hf : f = m \/ f = m - 1).
  { assert (IZR (m - 2) < IZR f)%R by (rewrite minus_IZR; lra).
    assert (IZR f < IZR (m + 1))%R by (rewrite plus_IZR; lra).
    apply lt_IZR in H, H0. lia. }
  destruct (total_order_T (y - IZR f) (1 / 2)) as [[H|H]|H];
    destruct Hf as [Hf|Hf]; rewrite Hf in *;
    try rewrite minus_IZR in *; try lra; try lia.
Qed.

(** Rounding a real number that lies in the binade of exponent [k], within
    half a unit of the mantissa [m]. *)
Lemma round_pos_eq (y : R) (k m : Z) :
  -149 <= k <= 104 ->
  (powerRZ 2 (k + 23) <= y < powerRZ 2 (k + 24))%R ->
  (IZR m - 1 / 2 < y * powerRZ 2 (- k) < IZR m + 1 / 2)%R ->
  round_pos y = binary_normalize 24 128 m k false.
Proof.
  intros Hk Hy Hm. unfold round_pos.
  rewrite (find_exp_eq y k Hy); [|lia|change (Z.of_nat 253) with 253; lia].
  now rewrite (Znearest_even_eq _ m Hm).
Qed.

Lemma R2F32_neg (r : R) : (r < 0)%R -> R2F32 r = SFopp (round_pos (- r)).
Proof.
  intros H. unfold R2F32.
  destruct (total_order_T r 0) as [[H'|H']|H']; [reflexivity | lra | lra].
Qed.

Lemma R2F32_pos (r : R) : (0 < r)%R -> R2F32 r = round_pos r.
Proof.
  intros H. unfold R2F32.
  destruct (total_order_T r 0) as [[H'|H']|H']; [lra | lra | reflexivity].
Qed.

(** Seventeen digits of [PI], from the series of [2 * atan (1/3) + atan (1/7)]. *)
Lemma PI_17_digits :
  (31415926535897932 / 10000000000000000 < Rtrigo1.PI
   < 31415926535897933 / 10000000000000000)%R.
Proof.
  pose proof (PI_2_3_7_ineq 8) as [H1 H2].
  unfold PI_2_3_7_tg, tg_alt, Ratan_seq in H1, H2.
  cbn [sum_f_R0 Nat.mul Nat.add pow INR] in H1, H2.
  split; lra.
Qed.

Lemma F2R_PI32 : F2R PI32 = (13176795 / 4194304)%R.
Proof.
  unfold F2R, PI32, powerRZ. change (Pos.to_nat 22) with 22%nat. lra.
Qed.

(** [PI32] lies a little above [PI], so its sine is a little below zero:
    in units of [2 ^ -47] it is within half a unit of [-12303662]. *)
Lemma sin_PI32_bounds :
  (IZR 12303662 - 1 / 2 < - sin (F2R PI32) * 2 ^ 47 < IZR 12303662 + 1 / 2)%R.
Proof.
  set (x := (F2R PI32 - Rtrigo1.PI)%R).
  assert (Hx : (13176795 / 4194304 - 31415926535897933 / 10000000000000000 < x
                < 13176795 / 4194304 - 31415926535897932 / 10000000000000000)%R).
  { unfold x. rewrite F2R_PI32. pose proof PI_17_digits. lra. }
  replace (F2R PI32) with (x + Rtrigo1.PI)%R by (unfold x; ring).
  rewrite neg_sin, Ropp_involutive.
  assert (Hx0 : (0 < x)%R) by lra.
  pose proof (sin_lt_x x Hx0) as Hub.
  pose proof PI_17_digits as Hpi.
  destruct (sin_bound x 0 ltac:(lra) ltac:(lra)) as [Hlb _].
  unfold sin_approx, sin_term in Hlb.
  cbn [sum_f_R0 Nat.mul Nat.add pow fact INR] in Hlb.
  assert (Hlow : (x * (1 - 1 / 100000000000000) <= sin x)%R) by nra.
  split; lra.
Qed.

Lemma sinf32_PI32 : sinf32 PI32 = S754_finite true 12303662 (-47).
Proof.
  pose proof sin_PI32_bounds as Hb.
  change (sinf32 PI32) with (R2F32 (sin (F2R PI32))).
  assert (Hneg : (sin (F2R PI32) < 0)%R) by lra.
  rewrite (R2F32_neg _ Hneg).
  rewrite (round_pos_eq _ (-47) 12303662); [reflexivity | lia | | ].
  - change (powerRZ 2 (-47 + 23)) with (/ 2 ^ 24)%R.
    change (powerRZ 2 (-47 + 24)) with (/ 2 ^ 23)%R. split; lra.
  - change (powerRZ 2 (- -47)) with (2 ^ 47)%R. exact Hb.
Qed.

Lemma cos_PI32_bounds : (1 - 1 / 100000000 < - cos (F2R PI32) <= 1)%R.
Proof.
  set (x := (F2R PI32 - Rtrigo1.PI)%R).
  assert (Hx : (0 < x < 1 / 10000000)%R).
  { unfold x. rewrite F2R_PI32. pose proof PI_17_digits. lra. }
  replace (F2R PI32) with (x + Rtrigo1.PI)%R by (unfold x; ring).
  rewrite neg_cos, Ropp_involutive.
  pose proof PI_17_digits as Hpi.
  destruct (cos_bound x 0 ltac:(lra) ltac:(lra)) as [Hlb _].
  unfold cos_approx, cos_term in Hlb.
  cbn [sum_f_R0 Nat.mul Nat.add pow fact INR] in Hlb.
  pose proof (COS_bound x) as [_ Hub].
  split; [nra | exact Hub].
Qed.

Lemma round_pos_near_one (y : R) :
  (1 - 1 / 100000000 < y <= 1)%R -> round_pos y = S754_finite false 8388608 (-23).
Proof.
  intros [Hlo Hhi]. destruct (Rle_lt_or_eq_dec _ _ Hhi) as [Hlt|Heq]; [|subst y].
  - rewrite (round_pos_eq y (-24) 16777216); [reflexivity | lia | | ].
    + change (powerRZ 2 (-24 + 23)) with (/ 2 ^ 1)%R.
      change (powerRZ 2 (-24 + 24)) with 1%R. split; lra.
    + change (powerRZ 2 (- -24)) with (2 ^ 24)%R. split; lra.
  - rewrite (round_pos_eq 1 (-23) 8388608); [reflexivity | lia | | ].
    + change (powerRZ 2 (-23 + 23)) with 1%R.
      change (powerRZ 2 (-23 + 24)) with (2 ^ 1)%R. split; lra.
    + change (powerRZ 2 (- -23)) with (2 ^ 23)%R. split; lra.
Qed.

Lemma cosf32_PI32 : cosf32 PI32 = S754_finite true 8388608 (-23).
Proof.
  pose proof cos_PI32_bounds as Hb.
  change (cosf32 PI32) with (R2F32 (cos (F2R PI32))).
  rewrite R2F32_neg by lra.
  now rewrite round_pos_near_one.
Qed.

Lemma cosf32_zero (s : bool) :
  cosf32 (S754_zero s) = S754_finite false 8388608 (-23).
Proof.
  change (cosf32 (S754_zero s)) with (R2F32 (cos 0)).
  rewrite cos_0, R2F32_pos by lra.
  apply round_pos_near_one. lra.
Qed.

(** ** The example of the specification, in single precision *)

(** The two student angles of the example: 0 degrees and 180 degrees come
    out as [+0] and as [PI32]. *)
Lemma example_angles (tc sc lc : FLinearColor) (labels : bool) :
  StudentAngle (example_config tc sc lc labels) 0 = S754_zero false /\
  StudentAngle (example_config tc sc lc labels) 1 = PI32.
Proof. split; vm_compute; reflexivity. Qed.

(** What the run of the example leaves as the five records. *)
Lemma example_output (tc sc lc : FLinearColor) (labels : bool) :
  generate (example_config tc sc lc labels) =
  Done [ mkPlacement "Leader_phi"%string Leader
           (mkFVector (lit32 0) (lit32 0) (lit32 500)) lc (lit32 75);
         mkPlacement "Leader_gpt"%string Leader
           (mkFVector (lit32 400) (lit32 0) (lit32 500)) lc (lit32 75);
         mkPlacement "Teacher_1"%string Teacher
           (mkFVector (lit32 0) (lit32 0) (lit32 (-500))) tc (lit32 50);
         mkPlacement "Teacher_1_Student_1"%string Student
           (mkFVector (lit32 200) (lit32 0) (lit32 (-500))) sc (lit32 40);
         mkPlacement "Teacher_1_Student_2"%string Student
           (mkFVector (lit32 (-200)) (S754_finite true 9612236 (-39)) (lit32 (-500)))
           sc (lit32 40) ].
Proof.
  rewrite generate_runs;
    [| unfold wf_config, int32, INT32_MIN, INT32_MAX, Num; cbn; lia
     | left; discriminate].
  f_equal.
  destruct (example_angles tc sc lc labels) as [Ha0 Ha1].
  set (cfg := example_config tc sc lc labels) in *.
  change (spawned_agents cfg) with
    [spawned_leader cfg 0; spawned_leader cfg 1; spawned_teacher cfg 0;
     spawned_student cfg 0 0; spawned_student cfg 0 1].
  cbn [map]. unfold placement, spawned_leader, spawned_teacher, spawned_student.
  cbn [ActorLabel Kind ActorLocation RootSphere SphereColor SphereRadius].
  unfold StudentOffset. rewrite Ha0, Ha1.
  change (@FMath_Sin binary32 Binary32_Scalar) with sinf32.
  change (@FMath_Cos binary32 Binary32_Scalar) with cosf32.
  rewrite sinf32_PI32, cosf32_PI32, cosf32_zero.
  subst cfg. vm_compute. reflexivity.
Qed.

(** C2 (amended): with [leaderNames = ["phi","gpt"]], [teacherCount = 1],
    [studentsPerTeacher = 2], [spacing = 200] and [agentSize = 50], [generate]
    yields, in this order, the leaders at (0,0,500) and (400,0,500) with size
    75, one teacher at (0,0,-500) with size 50, and two students with size
    40: the first at (200,0,-500), angle 0, the second at
    (-200, -9612236 * 2^-39, -500), where the second coordinate is about
    [-1.7484555e-05].  The angle of 180 degrees is the single-precision [PI],
    whose sine is about [-8.74e-08] and not zero.  The colours and the label
    flag are arbitrary. *)
Theorem C2_example_in_binary32 (tc sc lc : FLinearColor) (labels : bool) :
  generate (example_config tc sc lc labels) =
  Done [ mkPlacement "Leader_phi"%string Leader
           (mkFVector (lit32 0) (lit32 0) (lit32 500)) lc (lit32 75);
         mkPlacement "Leader_gpt"%string Leader
           (mkFVector (lit32 400) (lit32 0) (lit32 500)) lc (lit32 75);
         mkPlacement "Teacher_1"%string Teacher
           (mkFVector (lit32 0) (lit32 0) (lit32 (-500))) tc (lit32 50);
         mkPlacement "Teacher_1_Student_1"%string Student
           (mkFVector (lit32 200) (lit32 0) (lit32 (-500))) sc (lit32 40);
         mkPlacement "Teacher_1_Student_2"%string Student
           (mkFVector (lit32 (-200)) (S754_finite true 9612236 (-39)) (lit32 (-500)))
           sc (lit32 40) ] /\
  F2R (S754_finite true 9612236 (-39)) = (- 9612236 / 2 ^ 39)%R.
Proof.
  split; [apply example_output|].
  unfold F2R, powerRZ. change (Pos.to_nat 39) with 39%nat. lra.
Qed.

(** C2 as stated fails in the arithmetic of the source: the second student
    of the example is not at (-200, 0, -500).  Its second coordinate is
    [200 * sinf(PI32)], which is [-9612236 * 2^-39] and not zero. *)
Lemma C2_binary32_counterexample :
  exists out s,
    generate (example_config Blue32 Green32 Gold32 true) = Done out /\
    nth_error out 4 = Some s /\
    id s = "Teacher_1_Student_2"%string /\
    vy (position s) = S754_finite true 9612236 (-39) /\
    position s <> mkFVector (lit32 (-200)) (lit32 0) (lit32 (-500)).
Proof.
  eexists _, _. split; [apply example_output|].
  split; [reflexivity|]. split; [reflexivity|]. split; [reflexivity|].
  cbn [position]. intros H. apply (f_equal vy) in H. cbn [vy] in H.
  vm_compute in H. discriminate H.
Qed.

(** * Further properties of the layout path *)

(** ** Lists *)

Lemma length_flat_map_block {A B} (f : A -> list B) (n : nat) (l : list A) :
  (forall x, List.length (f x) = n) ->
  List.length (flat_map f l) = (List.length l * n)%nat.
Proof.
  intros Hf. induction l as [|a l IH]; cbn [flat_map List.length]; [reflexivity|].
  rewrite length_app, Hf, IH. reflexivity.
Qed.

Lemma map_const_repeat {A B} (b : B) (l : list A) :
  map (fun _ => b) l = repeat b (List.length l).
Proof. induction l as [|a l IH]; cbn; [reflexivity | now rewrite IH]. Qed.

Lemma twice_has_duplicates {A} (l : list A) : l <> [] -> ~ NoDup (l ++ l).
Proof.
  destruct l as [|a l]; [congruence|]. intros _ H.
  cbn in H. inversion H as [|x t Hin _]. apply Hin.
  apply in_or_app. right. now left.
Qed.

Section Actors.

Context {F : Type} {S : Scalar F}.

Variable self : AAgentWorldStarter (F := F).

Lemma CreateAgentWorld_appends (A0 : list AActor) :
  wf_config self -> has_leader_or_no_teacher self ->
  CreateAgentWorld self A0 = Done (tt, A0 ++ spawned_agents self).
Proof.
  intros (HT & HS & HL) Hok. unfold CreateAgentWorld, bind.
  rewrite CreateLeaders_runs by exact HL.
  rewrite CreateTeachersAndStudents_runs; [|apply HT | apply HS | exact Hok].
  unfold spawned_agents. now rewrite app_assoc.
Qed.

Lemma CreateAgentWorld_leaderless_from (A0 : list AActor) :
  Leaders self = [] -> 0 < TeacherCount self ->
  CreateAgentWorld self A0 = Crash DivideByZero.
Proof.
  intros E HT. unfold CreateAgentWorld, bind, CreateLeaders.
  rewrite E. cbn.
  apply for_loop_first_crash; [exact HT|].
  now apply CreateTeachers_body_leaderless.
Qed.

Lemma spawned_agents_length :
  List.length (spawned_agents self) =
  (List.length (Leaders self) +
   Z.to_nat (TeacherCount self) * Datatypes.S (Z.to_nat (StudentsPerTeacher self)))%nat.
Proof.
  unfold spawned_agents, spawned_classes.
  rewrite length_app, spawned_leaders_length.
  rewrite (length_flat_map_block _ _ _ (spawned_class_length self)), range_length.
  reflexivity.
Qed.

(** The number [Agents.Num()] that [CreateAgentWorld] logs at its end: one
    actor per leader name, and per teacher the teacher and its students,
    with negative counts taken as zero. *)
Theorem Agents_Num_after_CreateAgentWorld :
  wf_config self -> has_leader_or_no_teacher self ->
  exists Agents,
    CreateAgentWorld self [] = Done (tt, Agents) /\
    Z.of_nat (List.length Agents) =
    Num (Leaders self) +
    Z.max (TeacherCount self) 0 * (1 + Z.max (StudentsPerTeacher self) 0).
Proof.
  intros Hwf Hok. exists (spawned_agents self).
  split; [now apply CreateAgentWorld_runs|].
  rewrite spawned_agents_length. unfold Num.
  rewrite Nat2Z.inj_add, Nat2Z.inj_mul, Nat2Z.inj_succ.
  replace (Z.of_nat (Z.to_nat (TeacherCount self)))
    with (Z.max (TeacherCount self) 0) by lia.
  replace (Z.of_nat (Z.to_nat (StudentsPerTeacher self)))
    with (Z.max (StudentsPerTeacher self) 0) by lia.
  lia.
Qed.

(** A run only appends to [Agents]: whatever [Agents] holds before, it is
    still there afterwards, followed by the actors that a run from the empty
    array makes.  So a second [CreateAgentWorld] on the same actor makes
    every agent again, and each label then occurs twice. *)
Theorem CreateAgentWorld_again_duplicates :
  wf_config self -> has_leader_or_no_teacher self ->
  exists made,
    (forall Agents, CreateAgentWorld self Agents = Done (tt, Agents ++ made)) /\
    bind (CreateAgentWorld self) (fun _ => CreateAgentWorld self) [] =
      Done (tt, made ++ made) /\
    (made <> [] -> ~ NoDup (map ActorLabel (made ++ made))).
Proof.
  intros Hwf Hok. exists (spawned_agents self). split; [|split].
  - intros A0. now apply CreateAgentWorld_appends.
  - unfold bind. rewrite !CreateAgentWorld_appends by assumption. reflexivity.
  - intros Hne. rewrite map_app. apply twice_has_duplicates.
    destruct (spawned_agents self); [congruence | discriminate].
Qed.

(** The one fault of a run: it ends in a fault exactly when a teacher is to
    be made and the leader list is empty, and the fault is then the division
    by zero of [i % Leaders.Num()].  The range checks of [Leaders[i]] and of
    [Leaders[i % Leaders.Num()]] never fail, and [CreateCrown] never gets a
    pointer outside [Agents]. *)
Theorem CreateAgentWorld_faults_only_leaderless (Agents : list AActor) (f : Fault) :
  wf_config self ->
  (CreateAgentWorld self Agents = Crash f <->
   f = DivideByZero /\ Leaders self = [] /\ 0 < TeacherCount self).
Proof.
  intros Hwf. split.
  - intros H. destruct (leaderless_or_not self) as [Hok|[E HT]].
    + rewrite CreateAgentWorld_appends in H by assumption. discriminate.
    + rewrite CreateAgentWorld_leaderless_from in H by assumption.
      injection H as <-. now repeat split.
  - intros (-> & E & HT). now apply CreateAgentWorld_leaderless_from.
Qed.

(** After a run, the leaders and only the leaders wear a crown, and a crown
    has the five spikes of [CreateCrown]. *)
Theorem crowns_on_leaders_only :
  wf_config self -> has_leader_or_no_teacher self ->
  exists Agents,
    CreateAgentWorld self [] = Done (tt, Agents) /\
    forall a, In a Agents ->
      Crown a = match Kind a with
                | Leader => map CrownSpike [0; 1; 2; 3; 4]
                | Teacher | Student => []
                end.
Proof.
  intros Hwf Hok. exists (spawned_agents self).
  split; [now apply CreateAgentWorld_runs|].
  intros a Ha. apply in_spawned_agents in Ha
    as [(i & _ & ->)|[(i & _ & ->)|(i & j & _ & _ & ->)]]; reflexivity.
Qed.

(** After a run, with [ShowLabels] every actor has a text label, and its
    text is the actor's own label; without [ShowLabels] no actor has one. *)
Theorem labels_follow_ShowLabels :
  wf_config self -> has_leader_or_no_teacher self ->
  exists Agents,
    CreateAgentWorld self [] = Done (tt, Agents) /\
    forall a, In a Agents ->
      TextLabel a = if ShowLabels self then Some (ActorLabel a) else None.
Proof.
  intros Hwf Hok. exists (spawned_agents self).
  split; [now apply CreateAgentWorld_runs|].
  intros a Ha. apply in_spawned_agents in Ha
    as [(i & _ & ->)|[(i & _ & ->)|(i & j & _ & _ & ->)]]; reflexivity.
Qed.


(** The order of the output: first all the leaders, then teacher after
    teacher, each one followed at once by all of its students. *)
Theorem output_is_leaders_then_classes :
  wf_config self -> has_leader_or_no_teacher self ->
  exists out,
    generate self = Done out /\
    map category out =
    repeat Leader (List.length (Leaders self)) ++
    List.concat
      (repeat (Teacher :: repeat Student (Z.to_nat (StudentsPerTeacher self)))
              (Z.to_nat (TeacherCount self))).
Proof.
  intros Hwf Hok. exists (map placement (spawned_agents self)).
  split; [now apply generate_runs|].
  unfold spawned_agents, spawned_leaders, spawned_classes.
  rewrite !map_app, !map_map. f_equal.
  - cbn [placement category spawned_leader Kind].
    rewrite map_const_repeat, range_length. unfold Num. now rewrite Nat2Z.id.
  - rewrite flat_map_concat_map, !concat_map, !map_map. f_equal.
    erewrite map_ext.
    + rewrite map_const_repeat, range_length. reflexivity.
    + intros i. unfold spawned_class. cbn [map]. rewrite !map_map.
      cbn [placement category spawned_teacher spawned_student Kind].
      now rewrite map_const_repeat, range_length.
Qed.

End Actors.

(** ** The further properties at the declared property values *)

Lemma default_config_has_leader : has_leader_or_no_teacher default_config.
Proof. left. discriminate. Defined.

Lemma Agents_Num_after_CreateAgentWorld_witness :
  exists Agents,
    CreateAgentWorld default_config [] = Done (tt, Agents) /\
    Z.of_nat (List.length Agents) = 65.
Proof.
  exact (Agents_Num_after_CreateAgentWorld default_config
           default_config_wf default_config_has_leader).
Defined.

Lemma CreateAgentWorld_again_duplicates_witness :
  exists made,
    (forall Agents, CreateAgentWorld default_config Agents = Done (tt, Agents ++ made)) /\
    bind (CreateAgentWorld default_config) (fun _ => CreateAgentWorld default_config) [] =
      Done (tt, made ++ made) /\
    (made <> [] -> ~ NoDup (map ActorLabel (made ++ made))).
Proof.
  exact (CreateAgentWorld_again_duplicates default_config
           default_config_wf default_config_has_leader).
Defined.

Lemma CreateAgentWorld_faults_only_leaderless_witness :
  CreateAgentWorld default_config [] <> Crash IndexOutOfRange /\
  CreateAgentWorld default_config [] <> Crash InvalidActor.
Proof.
  split; intros H;
    apply (CreateAgentWorld_faults_only_leaderless default_config [] _
             default_config_wf) in H;
    destruct H as [H _]; discriminate H.
Defined.

Lemma crowns_on_leaders_only_witness :
  exists Agents,
    CreateAgentWorld default_config [] = Done (tt, Agents) /\
    forall a, In a Agents ->
      Crown a = match Kind a with
                | Leader => map CrownSpike [0; 1; 2; 3; 4]
                | Teacher | Student => []
                end.
Proof.
  exact (crowns_on_leaders_only default_config
           default_config_wf default_config_has_leader).
Defined.

Lemma labels_follow_ShowLabels_witness :
  exists Agents,
    CreateAgentWorld default_config [] = Done (tt, Agents) /\
    forall a, In a Agents -> TextLabel a = Some (ActorLabel a).
Proof.
  exact (labels_follow_ShowLabels default_config
           default_config_wf default_config_has_leader).
Defined.


Lemma output_is_leaders_then_classes_witness :
  exists out,
    generate default_config = Done out /\
    map category out =
    repeat Leader 5 ++ List.concat (repeat [Teacher; Student; Student] 20).
Proof.
  exact (output_is_leaders_then_classes default_config
           default_config_wf default_config_has_leader).
Defined.

